(** * polymarketMM: the order manager's pricing rules and fill state machine

    A shallow embedding of [src/utils.py], [src/config.py],
    [src/order_manager.py] and the recovery path of [src/bot.py].

    Numbers.  Python floats are embedded as exact rationals [Q]; the two
    decimal roundings the source performs on purpose ([round(x, 8)] and
    [round(x, 6)]) are kept, binary floating-point error is not modelled.
    Python's [==] on floats is [Qeq] ([==]), never Leibniz equality.

    Time.  [time.time()] is the field [now] of a [Clock] handed to every
    entry point: one call of a handler is instantaneous.

    Exchange.  Everything the CLOB client and the data API answer is an
    oracle of a record [Exchange], indexed by the number of calls made so
    far, so that theorems quantify over every behaviour of the exchange. *)

From Stdlib Require Import QArith Qabs Qround Qminmax ZArith Lqa Lia List String Bool.
Import ListNotations.
Open Scope Q_scope.

(** ** config.py *)

Module config.
Definition SPREAD_BUFFER_FRACTION : Q := 0.40.
Definition MIN_SPREAD_BUFFER : Q := 0.002.
Definition RESCAN_INTERVAL_SECONDS : Q := 180.
Definition ORDER_GRACE_PERIOD_SECONDS : Q := 30.
Definition MAX_ORDER_SIZE : Q := 500.
Definition MAX_SINGLE_ORDER_USDC : Q := 250.
Definition MAX_INVENTORY_PER_SIDE : Q := 300.
Definition MAX_ENTRY_COST : Q := 100.
Definition MAX_ORDERS_PER_MARKET : nat := 3.
Definition MAX_SELL_RETRIES : Z := 5.
Definition FILL_COOLDOWN_SECONDS : Q := 300.
Definition MAX_FILLS_BEFORE_BLOCK : nat := 3.
Definition STARTUP_COOLDOWN_SECONDS : Q := 60.
Definition GLOBAL_CIRCUIT_BREAKER : bool := true.
Definition GLOBAL_FILL_PAUSE_SECONDS : Q := 120.
Definition PEAK_HOURS_START : Z := 22.
Definition PEAK_HOURS_END : Z := 7.
Definition OFF_PEAK_SIZE_MULTIPLIER : Q := 1.
Definition PEAK_SIZE_MULTIPLIER : Q := 1.
Definition MARKET_BLACKLIST_SECONDS : Q := 7200.
End config.

(** ** utils.py *)

(** Python's [a < b], [a <= b] and [a == b] on numbers, as booleans. *)
Definition Qltb (a b : Q) : bool := negb (Qle_bool b a).
Definition Qleb (a b : Q) : bool := Qle_bool a b.
Definition Qeqb (a b : Q) : bool := Qeq_bool a b.

(** [round(q)] to an integer, ties to the even neighbour. *)
Definition round_half_even (q : Q) : Z :=
  let f := Qfloor q in
  match Qcompare (q - inject_Z f) (1 # 2) with
  | Lt => f
  | Gt => (f + 1)%Z
  | Eq => if Z.even f then f else (f + 1)%Z
  end.

Definition pow10 (n : nat) : Q := inject_Z (10 ^ Z.of_nat n).

(** [round(x, n)]: the nearest multiple of [10^-n]. *)
Definition py_round (x : Q) (n : nat) : Q :=
  inject_Z (round_half_even (x * pow10 n)) / pow10 n.

(** [round(floor(round(price / tick_size, 8)) * tick_size, 6)] *)
Definition round_price_down (price tick_size : Q) : Q :=
  py_round (inject_Z (Qfloor (py_round (price / tick_size) 8)) * tick_size) 6.

(** [max(tick_size, min(price, 1.0 - tick_size))] *)
Definition clamp_price (price tick_size : Q) : Q :=
  Qmax tick_size (Qmin price (1 - tick_size)).

Definition is_peak_hours (hour : Z) : bool :=
  if (config.PEAK_HOURS_END <? config.PEAK_HOURS_START)%Z
  then (config.PEAK_HOURS_START <=? hour)%Z || (hour <? config.PEAK_HOURS_END)%Z
  else (config.PEAK_HOURS_START <=? hour)%Z && (hour <? config.PEAK_HOURS_END)%Z.

Definition get_size_multiplier (hour : Z) : Q :=
  if is_peak_hours hour then config.PEAK_SIZE_MULTIPLIER
  else config.OFF_PEAK_SIZE_MULTIPLIER.

(** ** order_manager.py: pricing *)

(** [OrderManager._compute_buffer] *)
Definition _compute_buffer (max_spread tick_size : Q) : Q :=
  let buf := Qmax (max_spread * config.SPREAD_BUFFER_FRACTION)
                  config.MIN_SPREAD_BUFFER in
  Qmax buf tick_size.

(** One side of [calculate_order_prices]: the price of the BUY resting
    [effective_spread] below [side_midpoint], with the post-rounding
    boundary check.  The source writes this block twice, once against
    [midpoint] and once against [1.0 - midpoint]. *)
Definition buy_price_for (side_midpoint max_spread tick_size : Q) : Q :=
  let buffer := _compute_buffer max_spread tick_size in
  let effective_spread := max_spread - buffer in
  let p := side_midpoint - effective_spread in
  let p := round_price_down p tick_size in
  let p := clamp_price p tick_size in
  if Qleb max_spread (py_round (side_midpoint - p) 8)
  then clamp_price (p + tick_size) tick_size
  else p.

(** [OrderManager.calculate_order_prices]: [(buy_yes_price, buy_no_price)]. *)
Definition calculate_order_prices (midpoint max_spread tick_size : Q) : Q * Q :=
  let buy_yes_price := buy_price_for midpoint max_spread tick_size in
  let no_midpoint := 1 - midpoint in
  let buy_no_price := buy_price_for no_midpoint max_spread tick_size in
  (buy_yes_price, buy_no_price).

(** [OrderManager._calculate_sell_price] *)
Definition _calculate_sell_price
    (midpoint max_spread tick_size : Q) (is_yes : bool) : Q :=
  let sell_price :=
    if is_yes then round_price_down midpoint tick_size
    else let no_midpoint := 1 - midpoint in
         round_price_down no_midpoint tick_size in
  clamp_price sell_price tick_size.

(** The acceptance test [place_two_sided_orders] and [replace_orders] run on
    the computed prices: they give up when
    [buy_yes_price >= midpoint or buy_no_price >= no_midpoint]. *)
Definition prices_accepted (midpoint max_spread tick_size : Q) : bool :=
  let '(buy_yes_price, buy_no_price) :=
    calculate_order_prices midpoint max_spread tick_size in
  let no_midpoint := 1 - midpoint in
  negb (Qleb midpoint buy_yes_price || Qleb no_midpoint buy_no_price).

(** [tick_size] is a positive multiple of [10^-6]: the ticks on which
    [round(., 6)] in [round_price_down] leaves multiples of the tick alone
    (the exchange's ticks are 0.1, 0.01, 0.001 and 0.0001). *)
Definition valid_tick (tick_size : Q) : Prop :=
  0 < tick_size /\ exists z : Z, tick_size * pow10 6 == inject_Z z.



(** ** Python containers *)

(** A [dict] in insertion order. *)
Section Dict.
Context {K V : Type} (eqb : K -> K -> bool).

Fixpoint dict_get (k : K) (d : list (K * V)) : option V :=
    match d with
    | [] => None
    | (k', v) :: rest => if eqb k' k then Some v else dict_get k rest
    end.

  (** [d[k] = v]: in place when the key is there, appended otherwise. *)
Fixpoint dict_set (k : K) (v : V) (d : list (K * V)) : list (K * V) :=
    match d with
    | [] => [(k, v)]
    | (k', v') :: rest =>
        if eqb k' k then (k', v) :: rest else (k', v') :: dict_set k v rest
    end.

  (** [del d[k]] and [d.pop(k, None)]. *)
Definition dict_del (k : K) (d : list (K * V)) : list (K * V) :=
    filter (fun e => negb (eqb (fst e) k)) d.
End Dict.

Definition pair_eqb (a b : string * string) : bool :=
  String.eqb (fst a) (fst b) && String.eqb (snd a) (snd b).

(** A [set] of strings. *)
Definition set_mem (x : string) (s : list string) : bool :=
  existsb (String.eqb x) s.
Definition set_add (x : string) (s : list string) : list string :=
  if set_mem x s then s else s ++ [x].

(** ** order_manager.py: data model *)

Inductive Side : Type := BUY | SELL.

Definition Side_eqb (a b : Side) : bool :=
  match a, b with
  | BUY, BUY | SELL, SELL => true
  | _, _ => false
  end.

Module ActiveOrder.
Record t : Type := mk {
    order_id : string;
    token_id : string;
    side : Side;
    price : Q;
    size : Q;
    condition_id : string;
    placed_at : Q;
    midpoint_at_placement : Q
  }.
Definition with_size (o : t) (v : Q) : t :=
    mk (order_id o) (token_id o) (side o) (price o) v (condition_id o)
       (placed_at o) (midpoint_at_placement o).
End ActiveOrder.

Module FillEvent.
Record t : Type := mk {
    token_id : string;
    side : Side;
    price : Q;
    size : Q;
    condition_id : string
  }.
End FillEvent.

Module MarketPosition.
Record t : Type := mk {
    condition_id : string;
    token_id_yes : string;
    token_id_no : string;
    max_spread : Q;
    min_size : Q;
    tick_size : Q;
    orders : list ActiveOrder.t;
    last_midpoint : Q;
    yes_inventory : Q;
    no_inventory : Q;
    yes_entry_price : Q;
    no_entry_price : Q;
    yes_fill_times : list Q;
    no_fill_times : list Q;
    yes_last_sell_fill : Q;
    no_last_sell_fill : Q;
    yes_blocked : bool;
    no_blocked : bool
  }.

  (** [MarketPosition(condition_id=..., ..., last_midpoint=...)] with the
      dataclass defaults. *)
Definition new (cid yes no : string) (ms mn tk mid : Q) : t :=
    mk cid yes no ms mn tk [] mid 0 0 0 0 [] [] 0 0 false false.

Definition with_orders (p : t) (v : list ActiveOrder.t) : t :=
    mk (condition_id p) (token_id_yes p) (token_id_no p) (max_spread p)
       (min_size p) (tick_size p) v (last_midpoint p) (yes_inventory p)
       (no_inventory p) (yes_entry_price p) (no_entry_price p)
       (yes_fill_times p) (no_fill_times p) (yes_last_sell_fill p)
       (no_last_sell_fill p) (yes_blocked p) (no_blocked p).
Definition with_last_midpoint (p : t) (v : Q) : t :=
    mk (condition_id p) (token_id_yes p) (token_id_no p) (max_spread p)
       (min_size p) (tick_size p) (orders p) v (yes_inventory p)
       (no_inventory p) (yes_entry_price p) (no_entry_price p)
       (yes_fill_times p) (no_fill_times p) (yes_last_sell_fill p)
       (no_last_sell_fill p) (yes_blocked p) (no_blocked p).

  (** The attributes the source reaches through [is_yes] or [getattr]. *)
Definition inventory (is_yes : bool) (p : t) : Q :=
    if is_yes then yes_inventory p else no_inventory p.
Definition fill_times (is_yes : bool) (p : t) : list Q :=
    if is_yes then yes_fill_times p else no_fill_times p.
Definition last_sell_fill (is_yes : bool) (p : t) : Q :=
    if is_yes then yes_last_sell_fill p else no_last_sell_fill p.
Definition blocked (is_yes : bool) (p : t) : bool :=
    if is_yes then yes_blocked p else no_blocked p.
Definition token_of (is_yes : bool) (p : t) : string :=
    if is_yes then token_id_yes p else token_id_no p.

Definition with_inventory (is_yes : bool) (p : t) (v : Q) : t :=
    mk (condition_id p) (token_id_yes p) (token_id_no p) (max_spread p)
       (min_size p) (tick_size p) (orders p) (last_midpoint p)
       (if is_yes then v else yes_inventory p)
       (if is_yes then no_inventory p else v)
       (yes_entry_price p) (no_entry_price p)
       (yes_fill_times p) (no_fill_times p) (yes_last_sell_fill p)
       (no_last_sell_fill p) (yes_blocked p) (no_blocked p).
Definition with_entry_price (is_yes : bool) (p : t) (v : Q) : t :=
    mk (condition_id p) (token_id_yes p) (token_id_no p) (max_spread p)
       (min_size p) (tick_size p) (orders p) (last_midpoint p)
       (yes_inventory p) (no_inventory p)
       (if is_yes then v else yes_entry_price p)
       (if is_yes then no_entry_price p else v)
       (yes_fill_times p) (no_fill_times p) (yes_last_sell_fill p)
       (no_last_sell_fill p) (yes_blocked p) (no_blocked p).
Definition with_fill_times (is_yes : bool) (p : t) (v : list Q) : t :=
    mk (condition_id p) (token_id_yes p) (token_id_no p) (max_spread p)
       (min_size p) (tick_size p) (orders p) (last_midpoint p)
       (yes_inventory p) (no_inventory p) (yes_entry_price p) (no_entry_price p)
       (if is_yes then v else yes_fill_times p)
       (if is_yes then no_fill_times p else v)
       (yes_last_sell_fill p) (no_last_sell_fill p)
       (yes_blocked p) (no_blocked p).
Definition with_last_sell_fill (is_yes : bool) (p : t) (v : Q) : t :=
    mk (condition_id p) (token_id_yes p) (token_id_no p) (max_spread p)
       (min_size p) (tick_size p) (orders p) (last_midpoint p)
       (yes_inventory p) (no_inventory p) (yes_entry_price p) (no_entry_price p)
       (yes_fill_times p) (no_fill_times p)
       (if is_yes then v else yes_last_sell_fill p)
       (if is_yes then no_last_sell_fill p else v)
       (yes_blocked p) (no_blocked p).
Definition with_blocked (is_yes : bool) (p : t) (v : bool) : t :=
    mk (condition_id p) (token_id_yes p) (token_id_no p) (max_spread p)
       (min_size p) (tick_size p) (orders p) (last_midpoint p)
       (yes_inventory p) (no_inventory p) (yes_entry_price p) (no_entry_price p)
       (yes_fill_times p) (no_fill_times p)
       (yes_last_sell_fill p) (no_last_sell_fill p)
       (if is_yes then v else yes_blocked p)
       (if is_yes then no_blocked p else v).
End MarketPosition.

(** [market_scanner.MarketOpportunity] *)
Module MarketOpportunity.
Record t : Type := mk {
    condition_id : string;
    question : string;
    token_id_yes : string;
    token_id_no : string;
    midpoint : Q;
    reward_rate : Q;
    min_size : Q;
    max_spread : Q;
    book_depth_usdc : Q;
    current_spread : Q;
    tick_size : Q;
    neg_risk : bool;
    opportunity_score : Q
  }.
End MarketOpportunity.

(** ** The exchange client *)

(** What a call of the client or of the data API comes back with: a value,
    or an exception (the flag says whether its text has "404" or
    "No orderbook", which the recovery path looks for). *)
Inductive Reply (A : Type) : Type :=
| Raised (dead_market : bool)
| Returned (a : A).
Arguments Raised {A} dead_market.
Arguments Returned {A} a.

(** What [_place_order] hands to the client between [try:] and the reading
    of the response: allowance update for a SELL, signing, and the post (GTC,
    with the FOK fallback when a SELL is below [min_order_size]).  The
    request keeps the condition id the order is placed for (the empty string
    on the recovery path of the supervisor, which has none). *)
Record OrderRequest : Type := mkRequest {
  req_token_id : string;
  req_price : Q;
  req_size : Q;
  req_side : Side;
  req_condition_id : string;
  req_min_order_size : Q
}.

(** The response to a post: [resp.get("success", True)] and the order id. *)
Record PostResponse : Type := mkPost {
  post_success : bool;
  post_order_id : option string
}.

(** The response of [get_order]: a dict with its [status] and
    [size_matched] ([None] when [float()] cannot read it), or something
    that is not a dict. *)
Inductive OrderData : Type :=
| OrderDict (status : string) (size_matched : option Q)
| OrderNotDict.

(** The response of [get_orders]: [None], a list of order ids, or something
    else. *)
Inductive OpenOrders : Type :=
| OpenNone
| OpenList (ids : list string)
| OpenOther.

(** Every answer of the outside world; the first argument is the number of
    calls made before this one. *)
Record Exchange : Type := mkExchange {
  ex_get_midpoint : nat -> string -> Reply Q;
  ex_cancel : nat -> string -> Reply unit;
  ex_post_order : nat -> OrderRequest -> Reply PostResponse;
  ex_get_order : nat -> string -> Reply OrderData;
  ex_get_orders : nat -> Reply OpenOrders;
  ex_positions : nat -> Reply (list (string * Q));
  ex_get_tick_size : nat -> string -> Reply Q;
  ex_min_order_size : nat -> string -> Reply Q
}.

(** [self.client]: how many calls it has served, and what it was asked to
    post and to cancel, oldest first. *)
Record Client : Type := mkClient {
  calls : nat;
  submitted : list OrderRequest;
  cancelled : list string
}.

Record Clock : Type := mkClock {
  now : Q;
  hour : Z
}.

(** [OrderManager]: [_sell_fail_counts] holds failure counts under
    [(cid, token_id)] and, under [("_last_retry", cid, token_id)], the time
    of the last retry; the two families of keys never meet and are two
    dicts here. *)
Record OrderManager : Type := mkOrderManager {
  client : Client;
  positions : list (string * MarketPosition.t);
  _sell_fail_counts : list ((string * string) * Z);
  _last_retry : list ((string * string) * Q);
  _phantom_tokens : list string;
  _last_global_fill : Q;
  _market_blacklist : list (string * Q)
}.

Definition with_client (om : OrderManager) (v : Client) : OrderManager :=
  mkOrderManager v (positions om) (_sell_fail_counts om) (_last_retry om)
    (_phantom_tokens om) (_last_global_fill om) (_market_blacklist om).
Definition with_positions (om : OrderManager)
    (v : list (string * MarketPosition.t)) : OrderManager :=
  mkOrderManager (client om) v (_sell_fail_counts om) (_last_retry om)
    (_phantom_tokens om) (_last_global_fill om) (_market_blacklist om).
Definition with_sell_fail_counts (om : OrderManager)
    (v : list ((string * string) * Z)) : OrderManager :=
  mkOrderManager (client om) (positions om) v (_last_retry om)
    (_phantom_tokens om) (_last_global_fill om) (_market_blacklist om).
Definition with_last_retry (om : OrderManager)
    (v : list ((string * string) * Q)) : OrderManager :=
  mkOrderManager (client om) (positions om) (_sell_fail_counts om) v
    (_phantom_tokens om) (_last_global_fill om) (_market_blacklist om).
Definition with_phantom_tokens (om : OrderManager) (v : list string)
    : OrderManager :=
  mkOrderManager (client om) (positions om) (_sell_fail_counts om)
    (_last_retry om) v (_last_global_fill om) (_market_blacklist om).
Definition with_last_global_fill (om : OrderManager) (v : Q) : OrderManager :=
  mkOrderManager (client om) (positions om) (_sell_fail_counts om)
    (_last_retry om) (_phantom_tokens om) v (_market_blacklist om).
Definition with_market_blacklist (om : OrderManager) (v : list (string * Q))
    : OrderManager :=
  mkOrderManager (client om) (positions om) (_sell_fail_counts om)
    (_last_retry om) (_phantom_tokens om) (_last_global_fill om) v.

(** [self.positions.get(cid)], and the write-back of a position object the
    source mutates in place. *)
Definition get_position (cid : string) (om : OrderManager)
    : option MarketPosition.t :=
  dict_get String.eqb cid (positions om).
Definition set_position (cid : string) (p : MarketPosition.t)
    (om : OrderManager) : OrderManager :=
  with_positions om (dict_set String.eqb cid p (positions om)).

(** ** order_manager.py: the order manager *)

Inductive OrderStatus : Type := MATCHED | CANCELLED | LIVE | UNKNOWN.

(** [str.upper()] on ASCII. *)
Definition upper_ascii (c : Ascii.ascii) : Ascii.ascii :=
  let n := Ascii.nat_of_ascii c in
  if (97 <=? n)%nat && (n <=? 122)%nat then Ascii.ascii_of_nat (n - 32) else c.

Fixpoint upper (s : string) : string :=
  match s with
  | EmptyString => EmptyString
  | String c rest => String (upper_ascii c) (upper rest)
  end.

Definition is_buy (o : ActiveOrder.t) : bool := Side_eqb (ActiveOrder.side o) BUY.
Definition is_sell (o : ActiveOrder.t) : bool := Side_eqb (ActiveOrder.side o) SELL.

(** [any(o.side == SELL and o.token_id == token_id for o in orders)] *)
Definition has_sell (token_id : string) (orders : list ActiveOrder.t) : bool :=
  existsb (fun o => is_sell o && String.eqb (ActiveOrder.token_id o) token_id) orders.

(** [any(o.side == BUY and o.token_id == token_id for o in orders)] *)
Definition has_buy (token_id : string) (orders : list ActiveOrder.t) : bool :=
  existsb (fun o => is_buy o && String.eqb (ActiveOrder.token_id o) token_id) orders.

(** [not pos.orders and pos.yes_inventory == 0 and pos.no_inventory == 0] *)
Definition is_empty_position (pos : MarketPosition.t) : bool :=
  match MarketPosition.orders pos with [] => true | _ => false end
  && Qeqb (MarketPosition.yes_inventory pos) 0
  && Qeqb (MarketPosition.no_inventory pos) 0.

(** The closing loop of [handle_filled_orders] and [retry_pending_sells]:
    delete every position with no orders and no inventory. *)
Definition cleanup_positions (om : OrderManager) : OrderManager :=
  with_positions om
    (filter (fun e => negb (is_empty_position (snd e))) (positions om)).

Section WithExchange.

Variable ex : Exchange.

(** *** Calls of the client *)

Definition bump (c : Client) : Client :=
  mkClient (S (calls c)) (submitted c) (cancelled c).

Definition client_get_midpoint (token_id : string) (c : Client)
    : Reply Q * Client :=
  (ex_get_midpoint ex (calls c) token_id, bump c).

Definition client_cancel (order_id : string) (c : Client)
    : Reply unit * Client :=
  (ex_cancel ex (calls c) order_id,
   mkClient (S (calls c)) (submitted c) (cancelled c ++ [order_id])).

Definition client_post_order (req : OrderRequest) (c : Client)
    : Reply PostResponse * Client :=
  (ex_post_order ex (calls c) req,
   mkClient (S (calls c)) (submitted c ++ [req]) (cancelled c)).

Definition client_get_order (order_id : string) (c : Client)
    : Reply OrderData * Client :=
  (ex_get_order ex (calls c) order_id, bump c).

Definition client_get_orders (c : Client) : Reply OpenOrders * Client :=
  (ex_get_orders ex (calls c), bump c).

Definition data_api_positions (c : Client)
    : Reply (list (string * Q)) * Client :=
  (ex_positions ex (calls c), bump c).

Definition client_get_tick_size (token_id : string) (c : Client)
    : Reply Q * Client :=
  (ex_get_tick_size ex (calls c) token_id, bump c).

Definition client_min_order_size (token_id : string) (c : Client)
    : Reply Q * Client :=
  (ex_min_order_size ex (calls c) token_id, bump c).

(** [for order in orders: try: cancel(order.order_id) except: pass] *)
Definition cancel_each (orders : list ActiveOrder.t) (c : Client) : Client :=
  fold_left (fun c o => snd (client_cancel (ActiveOrder.order_id o) c)) orders c.

(** The block the source repeats wherever BUYs are pulled: cancel every BUY
    of the position on the exchange and keep the other orders. *)
Definition cancel_buy_orders (position : MarketPosition.t) (c : Client)
    : MarketPosition.t * Client :=
  let buy_orders := filter is_buy (MarketPosition.orders position) in
  let c := cancel_each buy_orders c in
  (MarketPosition.with_orders position
     (filter (fun o => negb (is_buy o)) (MarketPosition.orders position)), c).

(** *** Circuit breaker and blacklist *)

(** [OrderManager.is_global_paused] *)
Definition is_global_paused (clk : Clock) (om : OrderManager) : bool :=
  if negb config.GLOBAL_CIRCUIT_BREAKER then false
  else
    let pause := config.GLOBAL_FILL_PAUSE_SECONDS in
    Qltb 0 (_last_global_fill om) && Qltb (now clk - _last_global_fill om) pause.

(** [OrderManager.blacklist_market] *)
Definition blacklist_market (clk : Clock) (condition_id : string)
    (om : OrderManager) : OrderManager :=
  with_market_blacklist om
    (dict_set String.eqb condition_id (now clk) (_market_blacklist om)).

(** [OrderManager.is_blacklisted]: an expired entry is deleted on the way. *)
Definition is_blacklisted (clk : Clock) (condition_id : string)
    (om : OrderManager) : bool * OrderManager :=
  match dict_get String.eqb condition_id (_market_blacklist om) with
  | None => (false, om)
  | Some bl_time =>
      let elapsed := now clk - bl_time in
      if Qleb config.MARKET_BLACKLIST_SECONDS elapsed
      then (false, with_market_blacklist om
                     (dict_del String.eqb condition_id (_market_blacklist om)))
      else (true, om)
  end.

(** [OrderManager.cancel_all_buys], position by position. *)
Fixpoint cancel_all_buys_in (ps : list (string * MarketPosition.t))
    (c : Client) : list (string * MarketPosition.t) * Client :=
  match ps with
  | [] => ([], c)
  | (cid, position) :: rest =>
      let '(position, c) := cancel_buy_orders position c in
      let '(rest, c) := cancel_all_buys_in rest c in
      ((cid, position) :: rest, c)
  end.

Definition cancel_all_buys (om : OrderManager) : OrderManager :=
  let '(ps, c) := cancel_all_buys_in (positions om) (client om) in
  with_positions (with_client om c) ps.

(** [OrderManager._get_order_status] *)
Definition _get_order_status (order_id : string) (c : Client)
    : OrderStatus * Client :=
  let '(resp, c) := client_get_order order_id c in
  match resp with
  | Returned (OrderDict status (Some size_matched)) =>
      let status := upper status in
      if String.eqb status "MATCHED" || Qltb 0 size_matched then (MATCHED, c)
      else if String.eqb status "CANCELLED" || String.eqb status "EXPIRED"
      then (CANCELLED, c)
      else (LIVE, c)
  | Returned (OrderDict _ None) => (UNKNOWN, c)
  | Returned OrderNotDict => (UNKNOWN, c)
  | Raised _ => (UNKNOWN, c)
  end.

(** [OrderManager._get_current_midpoint] *)
Definition _get_current_midpoint (token_id : string) (c : Client)
    : option Q * Client :=
  let '(resp, c) := client_get_midpoint token_id c in
  match resp with
  | Returned mid => if Qleb mid 0 || Qleb 1 mid then (None, c) else (Some mid, c)
  | Raised _ => (None, c)
  end.

(** [mid = self._get_current_midpoint(position.token_id_yes)] followed by
    [if mid is None: mid = position.last_midpoint]. *)
Definition fresh_midpoint (position : MarketPosition.t) (c : Client)
    : Q * Client :=
  let '(mid, c) := _get_current_midpoint (MarketPosition.token_id_yes position) c in
  match mid with
  | Some mid => (mid, c)
  | None => (MarketPosition.last_midpoint position, c)
  end.

(** [OrderManager._track_order] *)
Definition _track_order (position : MarketPosition.t) (order : ActiveOrder.t)
    (c : Client) : bool * MarketPosition.t * Client :=
  if (config.MAX_ORDERS_PER_MARKET <=? List.length (MarketPosition.orders position))%nat
  then
    let '(_, c) := client_cancel (ActiveOrder.order_id order) c in
    (false, position, c)
  else
    (true,
     MarketPosition.with_orders position (MarketPosition.orders position ++ [order]),
     c).

(** The sanity checks that open [_place_order]; [true] means refused. *)
Definition order_refused (price size : Q) : bool :=
  Qleb price 0 || Qleb 1 price || Qleb size 0
  || Qltb config.MAX_ORDER_SIZE size
  || Qltb config.MAX_SINGLE_ORDER_USDC (price * size).

(** The inventory cap of [_place_order] on a BUY; [true] means refused. *)
Definition inventory_cap_refuses (token_id : string) (size : Q) (side : Side)
    (condition_id : string) (om : OrderManager) : bool :=
  match side with
  | BUY =>
      match get_position condition_id om with
      | Some position =>
          let current_inv :=
            if String.eqb token_id (MarketPosition.token_id_yes position)
            then MarketPosition.yes_inventory position
            else MarketPosition.no_inventory position in
          Qltb config.MAX_INVENTORY_PER_SIDE (current_inv + size)
      | None => false
      end
  | SELL => false
  end.

(** [OrderManager._place_order] *)
Definition _place_order (clk : Clock) (token_id : string) (price size : Q)
    (side : Side) (condition_id : string) (midpoint min_order_size : Q)
    (om : OrderManager) : option ActiveOrder.t * OrderManager :=
  if order_refused price size then (None, om)
  else if inventory_cap_refuses token_id size side condition_id om then (None, om)
  else
    let req := mkRequest token_id price size side condition_id min_order_size in
    let '(resp, c) := client_post_order req (client om) in
    let om := with_client om c in
    match resp with
    | Raised _ => (None, om)
    | Returned (mkPost false _) => (None, om)
    | Returned (mkPost true None) => (None, om)
    | Returned (mkPost true (Some order_id)) =>
        if String.eqb order_id "" then (None, om)
        else
          (Some (ActiveOrder.mk order_id token_id side price size condition_id
                   (now clk) midpoint), om)
    end.

(** The pair the source writes at every placement:
    [order = self._place_order(...)] then
    [if order: self._track_order(position, order)].  The boolean is the
    truth value of [order]. *)
Definition place_and_track (clk : Clock) (position : MarketPosition.t)
    (token_id : string) (price size : Q) (side : Side) (condition_id : string)
    (midpoint min_order_size : Q) (om : OrderManager)
    : bool * MarketPosition.t * OrderManager :=
  let '(order, om) :=
    _place_order clk token_id price size side condition_id midpoint
      min_order_size om in
  match order with
  | Some order =>
      let '(_, position, c) := _track_order position order (client om) in
      (true, position, with_client om c)
  | None => (false, position, om)
  end.

(** [OrderManager.place_two_sided_orders] *)
Definition place_two_sided_orders (clk : Clock) (opp : MarketOpportunity.t)
    (om : OrderManager) : option MarketPosition.t * OrderManager :=
  if is_global_paused clk om then (None, om)
  else
    let '(buy_yes_price, buy_no_price) :=
      calculate_order_prices (MarketOpportunity.midpoint opp)
        (MarketOpportunity.max_spread opp) (MarketOpportunity.tick_size opp) in
    let no_midpoint := 1 - MarketOpportunity.midpoint opp in
    if Qleb (MarketOpportunity.midpoint opp) buy_yes_price
       || Qleb no_midpoint buy_no_price
    then (None, om)
    else
      let cid := MarketOpportunity.condition_id opp in
      let position :=
        MarketPosition.new cid (MarketOpportunity.token_id_yes opp)
          (MarketOpportunity.token_id_no opp) (MarketOpportunity.max_spread opp)
          (MarketOpportunity.min_size opp) (MarketOpportunity.tick_size opp)
          (MarketOpportunity.midpoint opp) in
      let buy_size := MarketOpportunity.min_size opp * get_size_multiplier (hour clk) in
      let '(_, position, om) :=
        place_and_track clk position (MarketOpportunity.token_id_yes opp)
          buy_yes_price buy_size BUY cid (MarketOpportunity.midpoint opp) 0 om in
      let '(_, position, om) :=
        place_and_track clk position (MarketOpportunity.token_id_no opp)
          buy_no_price buy_size BUY cid (MarketOpportunity.midpoint opp) 0 om in
      match MarketPosition.orders position with
      | [] => (Some position, om)
      | _ :: _ => (Some position, set_position cid position om)
      end.

(** The loop of [cancel_market_orders]: [success] turns false at the first
    cancel that raises, the remaining orders are still cancelled. *)
Fixpoint cancel_orders_checked (orders : list ActiveOrder.t) (success : bool)
    (c : Client) : bool * Client :=
  match orders with
  | [] => (success, c)
  | order :: rest =>
      let '(r, c) := client_cancel (ActiveOrder.order_id order) c in
      match r with
      | Returned _ => cancel_orders_checked rest success c
      | Raised _ => cancel_orders_checked rest false c
      end
  end.

(** [OrderManager.cancel_market_orders] *)
Definition cancel_market_orders (condition_id : string) (om : OrderManager)
    : bool * OrderManager :=
  match get_position condition_id om with
  | None => (true, om)
  | Some position =>
      let '(success, c) :=
        cancel_orders_checked (MarketPosition.orders position) true (client om) in
      let om := with_client om c in
      if success
      then (true, with_positions om (dict_del String.eqb condition_id (positions om)))
      else (false, om)
  end.

(** [live_ids]: the ids of [get_orders()] that are not empty. *)
Definition live_ids_of (open_orders : OpenOrders) : list string :=
  match open_orders with
  | OpenList ids => filter (fun oid => negb (String.eqb oid "")) ids
  | OpenNone | OpenOther => []
  end.

(** The loop that opens [replace_orders]: a tracked BUY that is no longer
    live and is past the grace period counts as filled unless [get_order]
    says it was cancelled or is still live. *)
Fixpoint detect_fills_in (clk : Clock) (new_midpoint : Q)
    (live_ids : list string) (orders : list ActiveOrder.t)
    (position : MarketPosition.t) (c : Client) : MarketPosition.t * Client :=
  match orders with
  | [] => (position, c)
  | order :: rest =>
      if negb (set_mem (ActiveOrder.order_id order) live_ids)
         && Qleb config.ORDER_GRACE_PERIOD_SECONDS
                 (now clk - ActiveOrder.placed_at order)
         && is_buy order
      then
        let '(status, c) := _get_order_status (ActiveOrder.order_id order) c in
        match status with
        | MATCHED | UNKNOWN =>
            let is_yes :=
              String.eqb (ActiveOrder.token_id order)
                         (MarketPosition.token_id_yes position) in
            let position :=
              MarketPosition.with_inventory is_yes position
                (MarketPosition.inventory is_yes position + ActiveOrder.size order) in
            let position :=
              MarketPosition.with_entry_price is_yes position new_midpoint in
            detect_fills_in clk new_midpoint live_ids rest position c
        | CANCELLED | LIVE =>
            detect_fills_in clk new_midpoint live_ids rest position c
        end
      else detect_fills_in clk new_midpoint live_ids rest position c
  end.

Definition detect_fills_before_replace (clk : Clock) (new_midpoint : Q)
    (position : MarketPosition.t) (c : Client) : MarketPosition.t * Client :=
  let '(open_orders, c) := client_get_orders c in
  match open_orders with
  | Raised _ => (position, c)
  | Returned open_orders =>
      detect_fills_in clk new_midpoint (live_ids_of open_orders)
        (MarketPosition.orders position) position c
  end.

(** [x_in_cooldown] of [replace_orders]. *)
Definition side_in_cooldown (clk : Clock) (global_paused : bool) (is_yes : bool)
    (position : MarketPosition.t) : bool :=
  global_paused
  || MarketPosition.blocked is_yes position
  || (Qltb 0 (MarketPosition.last_sell_fill is_yes position)
      && Qltb (now clk - MarketPosition.last_sell_fill is_yes position)
              config.FILL_COOLDOWN_SECONDS).

(** [OrderManager.replace_orders] *)
Definition replace_orders (clk : Clock) (condition_id : string)
    (new_midpoint : Q) (om : OrderManager)
    : option MarketPosition.t * OrderManager :=
  match get_position condition_id om with
  | None => (None, om)
  | Some position =>
      let '(position, c) :=
        detect_fills_before_replace clk new_midpoint position (client om) in
      let om := set_position condition_id position (with_client om c) in
      let yes_inv := MarketPosition.yes_inventory position in
      let no_inv := MarketPosition.no_inventory position in
      let yes_entry := MarketPosition.yes_entry_price position in
      let no_entry := MarketPosition.no_entry_price position in
      let '(_, om) := cancel_market_orders condition_id om in
      let '(buy_yes_price, buy_no_price) :=
        calculate_order_prices new_midpoint (MarketPosition.max_spread position)
          (MarketPosition.tick_size position) in
      let no_midpoint := 1 - new_midpoint in
      if Qleb new_midpoint buy_yes_price || Qleb no_midpoint buy_no_price
      then (None, om)
      else
        let new_position :=
          MarketPosition.mk condition_id
            (MarketPosition.token_id_yes position)
            (MarketPosition.token_id_no position)
            (MarketPosition.max_spread position)
            (MarketPosition.min_size position)
            (MarketPosition.tick_size position)
            [] new_midpoint yes_inv no_inv yes_entry no_entry
            (MarketPosition.yes_fill_times position)
            (MarketPosition.no_fill_times position)
            (MarketPosition.yes_last_sell_fill position)
            (MarketPosition.no_last_sell_fill position)
            (MarketPosition.yes_blocked position)
            (MarketPosition.no_blocked position) in
        let global_paused := is_global_paused clk om in
        let yes_in_cooldown := side_in_cooldown clk global_paused true position in
        let no_in_cooldown := side_in_cooldown clk global_paused false position in
        let buy_size := MarketPosition.min_size position * get_size_multiplier (hour clk) in
        let '(_, new_position, om) :=
          if Qeqb yes_inv 0 && negb yes_in_cooldown
          then place_and_track clk new_position
                 (MarketPosition.token_id_yes position) buy_yes_price buy_size
                 BUY condition_id new_midpoint 0 om
          else (false, new_position, om) in
        let '(_, new_position, om) :=
          if Qeqb no_inv 0 && negb no_in_cooldown
          then place_and_track clk new_position
                 (MarketPosition.token_id_no position) buy_no_price buy_size
                 BUY condition_id new_midpoint 0 om
          else (false, new_position, om) in
        let '(_, new_position, om) :=
          if Qltb 0 yes_inv
          then
            let sell_yes_price :=
              _calculate_sell_price new_midpoint (MarketPosition.max_spread position)
                (MarketPosition.tick_size position) true in
            place_and_track clk new_position
              (MarketPosition.token_id_yes position) sell_yes_price yes_inv
              SELL condition_id new_midpoint (MarketPosition.min_size position) om
          else (false, new_position, om) in
        let '(_, new_position, om) :=
          if Qltb 0 no_inv
          then
            let sell_no_price :=
              _calculate_sell_price new_midpoint (MarketPosition.max_spread position)
                (MarketPosition.tick_size position) false in
            place_and_track clk new_position
              (MarketPosition.token_id_no position) sell_no_price no_inv
              SELL condition_id new_midpoint (MarketPosition.min_size position) om
          else (false, new_position, om) in
        match MarketPosition.orders new_position with
        | [] => (Some new_position, om)
        | _ :: _ => (Some new_position, set_position condition_id new_position om)
        end
  end.

(** *** REST sync *)

(** First inner loop of [sync_with_exchange]: [(surviving, newly_missing)]. *)
Fixpoint split_missing (clk : Clock) (live_ids : list string)
    (orders : list ActiveOrder.t)
    : list ActiveOrder.t * list ActiveOrder.t :=
  match orders with
  | [] => ([], [])
  | order :: rest =>
      let '(surviving, newly_missing) := split_missing clk live_ids rest in
      if set_mem (ActiveOrder.order_id order) live_ids
      then (order :: surviving, newly_missing)
      else if Qltb (now clk - ActiveOrder.placed_at order)
                   config.ORDER_GRACE_PERIOD_SECONDS
      then (order :: surviving, newly_missing)
      else (surviving, order :: newly_missing)
  end.

(** Second inner loop: every missing order is verified with [get_order]. *)
Fixpoint verify_missing (cid : string) (newly_missing : list ActiveOrder.t)
    (surviving : list ActiveOrder.t) (fills : list FillEvent.t) (c : Client)
    : list ActiveOrder.t * list FillEvent.t * Client :=
  match newly_missing with
  | [] => (surviving, fills, c)
  | order :: rest =>
      let '(status, c) := _get_order_status (ActiveOrder.order_id order) c in
      match status with
      | LIVE => verify_missing cid rest (surviving ++ [order]) fills c
      | CANCELLED => verify_missing cid rest surviving fills c
      | MATCHED | UNKNOWN =>
          verify_missing cid rest surviving
            (fills ++ [FillEvent.mk (ActiveOrder.token_id order)
                         (ActiveOrder.side order) (ActiveOrder.price order)
                         (ActiveOrder.size order) cid]) c
      end
  end.

(** The loop over [list(self.positions.items())]. *)
Fixpoint sync_positions (clk : Clock) (live_ids : list string)
    (total_tracked : nat) (ps : list (string * MarketPosition.t))
    (missing_count : nat) (fills : list FillEvent.t) (om : OrderManager)
    : list FillEvent.t * OrderManager :=
  match ps with
  | [] => (fills, om)
  | (cid, position) :: rest =>
      let '(surviving, newly_missing) :=
        split_missing clk live_ids (MarketPosition.orders position) in
      let missing_count := (missing_count + List.length newly_missing)%nat in
      if (total_tracked <=? missing_count)%nat && (2 <? total_tracked)%nat
      then ([], om)
      else
        let '(surviving, fills, c) :=
          verify_missing cid newly_missing surviving fills (client om) in
        let om :=
          set_position cid (MarketPosition.with_orders position surviving)
            (with_client om c) in
        sync_positions clk live_ids total_tracked rest missing_count fills om
  end.

(** [OrderManager.sync_with_exchange] *)
Definition sync_with_exchange (clk : Clock) (om : OrderManager)
    : list FillEvent.t * OrderManager :=
  let '(open_orders, c) := client_get_orders (client om) in
  let om := with_client om c in
  match open_orders with
  | Raised _ => ([], om)
  | Returned OpenNone => ([], om)
  | Returned open_orders =>
      let total_tracked :=
        fold_left (fun n e => (n + List.length (MarketPosition.orders (snd e)))%nat)
          (positions om) 0%nat in
      sync_positions clk (live_ids_of open_orders) total_tracked
        (positions om) 0%nat [] om
  end.

(** *** Fills from the REST sync *)

Definition fill_key : Type := string * string * Side.

Definition fill_key_eqb (a b : fill_key) : bool :=
  let '(c1, t1, s1) := a in
  let '(c2, t2, s2) := b in
  String.eqb c1 c2 && String.eqb t1 t2 && Side_eqb s1 s2.

(** [aggregated[key] = aggregated.get(key, 0) + fill.size], fill by fill. *)
Fixpoint aggregate_fills (fills : list FillEvent.t)
    (aggregated : list (fill_key * Q)) : list (fill_key * Q) :=
  match fills with
  | [] => aggregated
  | fill :: rest =>
      let key := (FillEvent.condition_id fill, FillEvent.token_id fill,
                  FillEvent.side fill) in
      let sofar :=
        match dict_get fill_key_eqb key aggregated with
        | Some total => total
        | None => 0
        end in
      aggregate_fills rest (dict_set fill_key_eqb key (sofar + FillEvent.size fill) aggregated)
  end.

(** [recent = [t for t in fill_times if now - t < FILL_COOLDOWN_SECONDS]]
    and the block on [len(recent) >= MAX_FILLS_BEFORE_BLOCK]. *)
Definition check_runaway (clk : Clock) (is_yes : bool)
    (position : MarketPosition.t) : MarketPosition.t :=
  let recent :=
    filter (fun t => Qltb (now clk - t) config.FILL_COOLDOWN_SECONDS)
      (MarketPosition.fill_times is_yes position) in
  if (config.MAX_FILLS_BEFORE_BLOCK <=? List.length recent)%nat
  then MarketPosition.with_blocked is_yes position true
  else position.

(** One turn of the loop over [aggregated.items()] in
    [handle_filled_orders]. *)
Definition handle_fill_group (clk : Clock) (om : OrderManager)
    (entry : fill_key * Q) : OrderManager :=
  let '((cid, token_id, side), total_size) := entry in
  match get_position cid om with
  | None => om
  | Some position =>
      let is_yes := String.eqb token_id (MarketPosition.token_id_yes position) in
      let '(mid, c) := fresh_midpoint position (client om) in
      let om := with_client om c in
      let position := MarketPosition.with_last_midpoint position mid in
      match side with
      | BUY =>
          let position :=
            MarketPosition.with_inventory is_yes position
              (MarketPosition.inventory is_yes position + total_size) in
          let position := MarketPosition.with_entry_price is_yes position mid in
          let position :=
            MarketPosition.with_fill_times is_yes position
              (MarketPosition.fill_times is_yes position ++ [now clk]) in
          let inv := MarketPosition.inventory is_yes position in
          let '(position, c) := cancel_buy_orders position (client om) in
          let om := set_position cid position (with_client om c) in
          let om :=
            if config.GLOBAL_CIRCUIT_BREAKER
            then cancel_all_buys (with_last_global_fill om (now clk))
            else om in
          let position := check_runaway clk is_yes position in
          if has_sell token_id (MarketPosition.orders position)
          then set_position cid position om
          else
            let sell_price :=
              _calculate_sell_price mid (MarketPosition.max_spread position)
                (MarketPosition.tick_size position) is_yes in
            let '(_, position, om) :=
              place_and_track clk position token_id sell_price inv SELL cid mid
                (MarketPosition.min_size position) om in
            set_position cid position om
      | SELL =>
          let position :=
            MarketPosition.with_inventory is_yes position
              (Qmax 0 (MarketPosition.inventory is_yes position - total_size)) in
          let position := MarketPosition.with_entry_price is_yes position 0 in
          let position :=
            MarketPosition.with_last_sell_fill is_yes position (now clk) in
          set_position cid position om
      end
  end.

(** [OrderManager.handle_filled_orders] *)
Definition handle_filled_orders (clk : Clock) (fills : list FillEvent.t)
    (om : OrderManager) : OrderManager :=
  let aggregated := aggregate_fills fills [] in
  cleanup_positions (fold_left (handle_fill_group clk) aggregated om).

(** *** SELL retry *)

(** [actual_on_chain]: the size of the first entry of the positions endpoint
    whose asset is the token, [0.0] when there is none or the call fails. *)
Definition remote_balance (token_id : string)
    (resp : Reply (list (string * Q))) : Q :=
  match resp with
  | Returned entries =>
      match find (fun p => String.eqb (fst p) token_id) entries with
      | Some p => snd p
      | None => 0
      end
  | Raised _ => 0
  end.

Definition fail_count_of (fail_key : string * string) (om : OrderManager) : Z :=
  match dict_get pair_eqb fail_key (_sell_fail_counts om) with
  | Some n => n
  | None => 0%Z
  end.

(** One turn of the inner loop of [retry_pending_sells]: one side of one
    position. *)
Definition retry_side (clk : Clock) (cid : string) (is_yes : bool)
    (om : OrderManager) : OrderManager :=
  match get_position cid om with
  | None => om
  | Some position =>
      let token_id := MarketPosition.token_of is_yes position in
      let inv := MarketPosition.inventory is_yes position in
      if Qleb inv 0 then om
      else if has_sell token_id (MarketPosition.orders position) then om
      else
        let fail_key := (cid, token_id) in
        let fail_count := fail_count_of fail_key om in
        if (config.MAX_SELL_RETRIES <=? fail_count)%Z
        then
          let '(resp, c) := data_api_positions (client om) in
          let om := with_client om c in
          let actual_on_chain := remote_balance token_id resp in
          if Qltb 0.5 actual_on_chain
          then
            let om :=
              with_sell_fail_counts om
                (dict_set pair_eqb fail_key 0%Z (_sell_fail_counts om)) in
            set_position cid
              (MarketPosition.with_inventory is_yes position actual_on_chain) om
          else
            let position := MarketPosition.with_inventory is_yes position 0 in
            let position := MarketPosition.with_entry_price is_yes position 0 in
            let om := set_position cid position om in
            let om :=
              with_sell_fail_counts om
                (dict_del pair_eqb fail_key (_sell_fail_counts om)) in
            with_phantom_tokens om (set_add token_id (_phantom_tokens om))
        else
          let last_attempt :=
            match dict_get pair_eqb fail_key (_last_retry om) with
            | Some t => t
            | None => 0
            end in
          if Qltb (now clk - last_attempt) config.RESCAN_INTERVAL_SECONDS then om
          else
            let om :=
              with_last_retry om
                (dict_set pair_eqb fail_key (now clk) (_last_retry om)) in
            let '(mid, c) := fresh_midpoint position (client om) in
            let om := with_client om c in
            let sell_price :=
              _calculate_sell_price mid (MarketPosition.max_spread position)
                (MarketPosition.tick_size position) is_yes in
            let '(placed, position, om) :=
              place_and_track clk position token_id sell_price inv SELL cid mid
                (MarketPosition.min_size position) om in
            let om := set_position cid position om in
            if placed
            then with_sell_fail_counts om
                   (dict_del pair_eqb fail_key (_sell_fail_counts om))
            else with_sell_fail_counts om
                   (dict_set pair_eqb fail_key (fail_count + 1)%Z
                      (_sell_fail_counts om))
  end.

(** [OrderManager.retry_pending_sells] *)
Definition retry_pending_sells (clk : Clock) (om : OrderManager)
    : OrderManager :=
  let om :=
    fold_left
      (fun om e => retry_side clk (fst e) false (retry_side clk (fst e) true om))
      (positions om) om in
  cleanup_positions om.

(** *** Fills from the stream *)

(** The search that opens [handle_ws_fill]: the first position, in dict
    order, that tracks an order with this id, and that order. *)
Fixpoint find_owner (order_id : string) (ps : list (string * MarketPosition.t))
    : option (string * MarketPosition.t * ActiveOrder.t) :=
  match ps with
  | [] => None
  | (c, pos) :: rest =>
      match find (fun o => String.eqb (ActiveOrder.order_id o) order_id)
                 (MarketPosition.orders pos) with
      | Some order => Some (c, pos, order)
      | None => find_owner order_id rest
      end
  end.

(** [matched_order.size = remaining]: the matched order is the first one
    with this id. *)
Fixpoint set_order_size (order_id : string) (v : Q)
    (orders : list ActiveOrder.t) : list ActiveOrder.t :=
  match orders with
  | [] => []
  | o :: rest =>
      if String.eqb (ActiveOrder.order_id o) order_id
      then ActiveOrder.with_size o v :: rest
      else o :: set_order_size order_id v rest
  end.

(** The body of the untracked-order loop for one token of one position;
    [None] when the loop goes on. *)
Definition untracked_fill_on (clk : Clock) (asset_id : string)
    (size_matched : Q) (c : string) (is_yes_check : bool) (om : OrderManager)
    : option OrderManager :=
  match get_position c om with
  | None => None
  | Some pos =>
      let tid := MarketPosition.token_of is_yes_check pos in
      let inv := MarketPosition.inventory is_yes_check pos in
      if String.eqb tid asset_id && Qltb 0 inv
      then
        let new_inv := Qmax 0 (inv - size_matched) in
        let pos := MarketPosition.with_inventory is_yes_check pos new_inv in
        let pos :=
          if Qeqb new_inv 0
          then MarketPosition.with_last_sell_fill is_yes_check
                 (MarketPosition.with_entry_price is_yes_check pos 0) (now clk)
          else pos in
        let pos :=
          MarketPosition.with_orders pos
            (filter (fun o => negb (is_sell o && String.eqb (ActiveOrder.token_id o) tid))
               (MarketPosition.orders pos)) in
        if is_empty_position pos
        then Some (with_positions om (dict_del String.eqb c (positions om)))
        else Some (set_position c pos om)
      else None
  end.

Fixpoint handle_untracked_fill (clk : Clock) (asset_id : string)
    (size_matched : Q) (cids : list string) (om : OrderManager)
    : OrderManager :=
  match cids with
  | [] => om
  | c :: rest =>
      match untracked_fill_on clk asset_id size_matched c true om with
      | Some om => om
      | None =>
          match untracked_fill_on clk asset_id size_matched c false om with
          | Some om => om
          | None => handle_untracked_fill clk asset_id size_matched rest om
          end
      end
  end.

(** [OrderManager.handle_ws_fill]; [side] is the side field of the event,
    which the source does not read. *)
Definition handle_ws_fill (clk : Clock) (order_id asset_id side : string)
    (size_matched price : Q) (om : OrderManager) : OrderManager :=
  match find_owner order_id (positions om) with
  | None =>
      handle_untracked_fill clk asset_id size_matched (map fst (positions om)) om
  | Some (cid, position, matched_order) =>
      let actual_side := ActiveOrder.side matched_order in
      let is_yes :=
        String.eqb (ActiveOrder.token_id matched_order)
                   (MarketPosition.token_id_yes position) in
      let remaining := ActiveOrder.size matched_order - size_matched in
      let position :=
        if Qltb 0.001 remaining
        then MarketPosition.with_orders position
               (set_order_size order_id remaining (MarketPosition.orders position))
        else MarketPosition.with_orders position
               (filter (fun o => negb (String.eqb (ActiveOrder.order_id o) order_id))
                  (MarketPosition.orders position)) in
      (* [returned]: the branch left through [return], before the cleanup *)
      let '(returned, position, om) :=
        match actual_side with
        | BUY =>
            let '(position, c) := cancel_buy_orders position (client om) in
            let om := set_position cid position (with_client om c) in
            let om :=
              if config.GLOBAL_CIRCUIT_BREAKER
              then cancel_all_buys (with_last_global_fill om (now clk))
              else om in
            let om := blacklist_market clk cid om in
            let position :=
              MarketPosition.with_inventory is_yes position
                (MarketPosition.inventory is_yes position + size_matched) in
            let position := MarketPosition.with_entry_price is_yes position price in
            let position :=
              MarketPosition.with_fill_times is_yes position
                (MarketPosition.fill_times is_yes position ++ [now clk]) in
            let position := check_runaway clk is_yes position in
            let token_id := ActiveOrder.token_id matched_order in
            if has_sell token_id (MarketPosition.orders position)
            then (true, position, om)
            else
              let '(mid, c) := fresh_midpoint position (client om) in
              let om := with_client om c in
              let position := MarketPosition.with_last_midpoint position mid in
              let inv := MarketPosition.inventory is_yes position in
              let sell_price :=
                _calculate_sell_price mid (MarketPosition.max_spread position)
                  (MarketPosition.tick_size position) is_yes in
              let '(_, position, om) :=
                place_and_track clk position token_id sell_price inv SELL cid mid
                  (MarketPosition.min_size position) om in
              (false, position, om)
        | SELL =>
            let position :=
              MarketPosition.with_inventory is_yes position
                (Qmax 0 (MarketPosition.inventory is_yes position - size_matched)) in
            let position :=
              if Qeqb (MarketPosition.inventory is_yes position) 0
              then MarketPosition.with_last_sell_fill is_yes
                     (MarketPosition.with_entry_price is_yes position 0) (now clk)
              else position in
            (false, position, om)
        end in
      if negb returned && is_empty_position position
      then with_positions om (dict_del String.eqb cid (positions om))
      else set_position cid position om
  end.

(** *** Cooldown re-entry *)

(** One turn of the inner loop of [process_cooldown_reentries]; [mid] is the
    lazily fetched midpoint of the position. *)
Definition reentry_side (clk : Clock) (cid : string) (is_yes : bool)
    (mid : option Q) (om : OrderManager) : option Q * OrderManager :=
  match get_position cid om with
  | None => (mid, om)
  | Some position =>
      let token_id := MarketPosition.token_of is_yes position in
      let last_sell := MarketPosition.last_sell_fill is_yes position in
      if Qeqb last_sell 0 then (mid, om)
      else if MarketPosition.blocked is_yes position then (mid, om)
      else if Qltb 0 (MarketPosition.inventory is_yes position) then (mid, om)
      else if Qltb (now clk - last_sell) config.FILL_COOLDOWN_SECONDS then (mid, om)
      else if has_buy token_id (MarketPosition.orders position) then (mid, om)
      else
        let '(mid, om) :=
          match mid with
          | Some mid => (mid, om)
          | None =>
              let '(mid, c) := fresh_midpoint position (client om) in
              (mid, with_client om c)
          end in
        let '(buy_yes_price, buy_no_price) :=
          calculate_order_prices mid (MarketPosition.max_spread position)
            (MarketPosition.tick_size position) in
        let buy_price := if is_yes then buy_yes_price else buy_no_price in
        let reentry_size :=
          MarketPosition.min_size position * get_size_multiplier (hour clk) in
        let '(placed, position, om) :=
          place_and_track clk position token_id buy_price reentry_size BUY cid
            mid 0 om in
        let position :=
          if placed then MarketPosition.with_last_sell_fill is_yes position 0
          else position in
        (Some mid, set_position cid position om)
  end.

Fixpoint reentry_positions (clk : Clock) (cids : list string)
    (om : OrderManager) : OrderManager :=
  match cids with
  | [] => om
  | cid :: rest =>
      let '(blacklisted, om) := is_blacklisted clk cid om in
      if blacklisted then reentry_positions clk rest om
      else
        let '(mid, om) := reentry_side clk cid true None om in
        let '(_, om) := reentry_side clk cid false mid om in
        reentry_positions clk rest om
  end.

(** [OrderManager.process_cooldown_reentries] *)
Definition process_cooldown_reentries (clk : Clock) (om : OrderManager)
    : OrderManager :=
  if is_global_paused clk om then om
  else reentry_positions clk (map fst (positions om)) om.

(** *** Stop-loss exit and SELL repricing *)

(** [next((o for o in orders if <sell on token_id>), None)] *)
Definition find_sell (token_id : string) (orders : list ActiveOrder.t)
    : option ActiveOrder.t :=
  find (fun o => is_sell o && String.eqb (ActiveOrder.token_id o) token_id) orders.

Definition remove_order (order_id : string) (orders : list ActiveOrder.t)
    : list ActiveOrder.t :=
  filter (fun o => negb (String.eqb (ActiveOrder.order_id o) order_id)) orders.

(** One turn of the loop of [force_exit_market]; [sell_orders] is the list
    taken before the loop. *)
Definition force_exit_side (clk : Clock) (condition_id : string) (mid : Q)
    (sell_orders : list ActiveOrder.t) (is_yes : bool)
    (position : MarketPosition.t) (om : OrderManager)
    : MarketPosition.t * OrderManager :=
  let token_id := MarketPosition.token_of is_yes position in
  let inv := MarketPosition.inventory is_yes position in
  if Qleb inv 0 then (position, om)
  else
    let target_price :=
      if is_yes then round_price_down mid (MarketPosition.tick_size position)
      else let no_mid := 1 - mid in
           round_price_down no_mid (MarketPosition.tick_size position) in
    let target_price := clamp_price target_price (MarketPosition.tick_size position) in
    match find (fun o => String.eqb (ActiveOrder.token_id o) token_id) sell_orders with
    | None =>
        let '(_, position, om) :=
          place_and_track clk position token_id target_price inv SELL
            condition_id mid (MarketPosition.min_size position) om in
        (position, om)
    | Some existing_sell =>
        if Qleb (MarketPosition.tick_size position)
                (Qabs (ActiveOrder.price existing_sell - target_price))
        then
          let '(_, c) := client_cancel (ActiveOrder.order_id existing_sell) (client om) in
          let om := with_client om c in
          let position :=
            MarketPosition.with_orders position
              (remove_order (ActiveOrder.order_id existing_sell)
                 (MarketPosition.orders position)) in
          let '(_, position, om) :=
            place_and_track clk position token_id target_price inv SELL
              condition_id mid (MarketPosition.min_size position) om in
          (position, om)
        else (position, om)
    end.

(** [OrderManager.force_exit_market] *)
Definition force_exit_market (clk : Clock) (condition_id : string)
    (om : OrderManager) : OrderManager :=
  match get_position condition_id om with
  | None => om
  | Some position =>
      let buy_orders := filter is_buy (MarketPosition.orders position) in
      let sell_orders := filter is_sell (MarketPosition.orders position) in
      let c := cancel_each buy_orders (client om) in
      let position := MarketPosition.with_orders position sell_orders in
      let '(mid, c) := fresh_midpoint position c in
      let om := with_client om c in
      let '(position, om) :=
        force_exit_side clk condition_id mid sell_orders true position om in
      let '(position, om) :=
        force_exit_side clk condition_id mid sell_orders false position om in
      if is_empty_position position
      then with_positions om (dict_del String.eqb condition_id (positions om))
      else set_position condition_id position om
  end.

(** One of the two re-placements of [reprice_sell_orders]. *)
Definition reprice_side (clk : Clock) (condition_id : string)
    (new_midpoint : Q) (is_yes : bool) (placed : bool)
    (position : MarketPosition.t) (om : OrderManager)
    : bool * MarketPosition.t * OrderManager :=
  if Qltb 0 (MarketPosition.inventory is_yes position)
  then
    let sell_price :=
      _calculate_sell_price new_midpoint (MarketPosition.max_spread position)
        (MarketPosition.tick_size position) is_yes in
    let '(ok, position, om) :=
      place_and_track clk position (MarketPosition.token_of is_yes position)
        sell_price (MarketPosition.inventory is_yes position) SELL condition_id
        new_midpoint (MarketPosition.min_size position) om in
    (if ok then true else placed, position, om)
  else (placed, position, om).

(** [OrderManager.reprice_sell_orders] *)
Definition reprice_sell_orders (clk : Clock) (condition_id : string)
    (new_midpoint : Q) (om : OrderManager) : bool * OrderManager :=
  match get_position condition_id om with
  | None => (false, om)
  | Some position =>
      let sell_orders := filter is_sell (MarketPosition.orders position) in
      match sell_orders with
      | [] => (false, om)
      | _ :: _ =>
          let c := cancel_each sell_orders (client om) in
          let om := with_client om c in
          let position :=
            MarketPosition.with_orders position
              (filter (fun o => negb (is_sell o)) (MarketPosition.orders position)) in
          let position := MarketPosition.with_last_midpoint position new_midpoint in
          let om :=
            with_sell_fail_counts om
              (dict_del pair_eqb (condition_id, MarketPosition.token_id_no position)
                 (dict_del pair_eqb (condition_id, MarketPosition.token_id_yes position)
                    (_sell_fail_counts om))) in
          let '(placed, position, om) :=
            reprice_side clk condition_id new_midpoint true false position om in
          let '(placed, position, om) :=
            reprice_side clk condition_id new_midpoint false placed position om in
          (placed, set_position condition_id position om)
      end
  end.

(** The best-ask undercut of [reprice_sell_if_stale]; [best_asks] is [None]
    when the caller passes none, and a missing or zero ask is falsy. *)
Definition undercut_target (position : MarketPosition.t) (token_id : string)
    (existing_sell : option ActiveOrder.t)
    (best_asks : option (list (string * Q))) (target_price : Q) : Q :=
  match best_asks with
  | None | Some [] => target_price
  | Some best_asks =>
      match dict_get String.eqb token_id best_asks with
      | None => target_price
      | Some ws_best_ask =>
          let tick := MarketPosition.tick_size position in
          if negb (Qeqb ws_best_ask 0) && Qltb (tick * 2) ws_best_ask
          then
            let is_our_order :=
              match existing_sell with
              | Some o => Qltb (Qabs (ws_best_ask - ActiveOrder.price o)) tick
              | None => false
              end in
            if is_our_order then target_price
            else
              let undercut := round_price_down (ws_best_ask - tick) tick in
              if Qltb 0 undercut && Qltb undercut target_price
              then clamp_price undercut tick
              else target_price
          else target_price
      end
  end.

(** One turn of the loop of [reprice_sell_if_stale]. *)
Definition reprice_if_stale_side (clk : Clock) (condition_id : string)
    (new_midpoint : Q) (best_asks : option (list (string * Q)))
    (is_yes : bool) (repriced : bool) (position : MarketPosition.t)
    (om : OrderManager) : bool * MarketPosition.t * OrderManager :=
  let token_id := MarketPosition.token_of is_yes position in
  let inv := MarketPosition.inventory is_yes position in
  if Qleb inv 0 then (repriced, position, om)
  else
    let target_price :=
      _calculate_sell_price new_midpoint (MarketPosition.max_spread position)
        (MarketPosition.tick_size position) is_yes in
    let existing_sell := find_sell token_id (MarketPosition.orders position) in
    let target_price :=
      undercut_target position token_id existing_sell best_asks target_price in
    match existing_sell with
    | None =>
        let '(ok, position, om) :=
          place_and_track clk position token_id target_price inv SELL
            condition_id new_midpoint (MarketPosition.min_size position) om in
        (if ok then true else repriced, position, om)
    | Some existing_sell =>
        if Qltb (Qabs (ActiveOrder.price existing_sell - target_price))
                (MarketPosition.tick_size position)
        then (repriced, position, om)
        else
          let '(_, c) := client_cancel (ActiveOrder.order_id existing_sell) (client om) in
          let om := with_client om c in
          let position :=
            MarketPosition.with_orders position
              (remove_order (ActiveOrder.order_id existing_sell)
                 (MarketPosition.orders position)) in
          let '(ok, position, om) :=
            place_and_track clk position token_id target_price inv SELL
              condition_id new_midpoint (MarketPosition.min_size position) om in
          (if ok then true else repriced, position, om)
    end.

(** [OrderManager.reprice_sell_if_stale] *)
Definition reprice_sell_if_stale (clk : Clock) (condition_id : string)
    (new_midpoint : Q) (best_asks : option (list (string * Q)))
    (om : OrderManager) : bool * OrderManager :=
  match get_position condition_id om with
  | None => (false, om)
  | Some position =>
      let '(repriced, position, om) :=
        reprice_if_stale_side clk condition_id new_midpoint best_asks true false
          position om in
      let '(repriced, position, om) :=
        reprice_if_stale_side clk condition_id new_midpoint best_asks false
          repriced position om in
      (repriced, set_position condition_id position om)
  end.

(** ** bot.py: the supervisor's placements *)

(** The fields of [LPRewardsBot] that placement reads and writes; its client
    is the order manager's ([OrderManager(self.client)]).  The stream
    subscriptions and [active_opportunities] are left out. *)
Record LPRewardsBot : Type := mkBot {
  order_manager : OrderManager;
  _recovered_token_ids : list string;
  _recovered_order_ids : list string;
  _recovery_info : list (string * (Q * option string * Q));
  _start_time : Q
}.

Definition with_order_manager (bot : LPRewardsBot) (v : OrderManager)
    : LPRewardsBot :=
  mkBot v (_recovered_token_ids bot) (_recovered_order_ids bot)
    (_recovery_info bot) (_start_time bot).

Definition set_discard (x : string) (s : list string) : list string :=
  filter (fun y => negb (String.eqb y x)) s.

(** The [except] branch of [_place_recovery_sell]. *)
Definition recovery_failed (token_id : string) (size : Q) (dead_market : bool)
    (bot : LPRewardsBot) : LPRewardsBot :=
  if dead_market then bot
  else
    mkBot (order_manager bot)
      (set_add token_id (_recovered_token_ids bot))
      (_recovered_order_ids bot)
      (dict_set String.eqb token_id (size, None, 0) (_recovery_info bot))
      (_start_time bot).

(** [LPRewardsBot._place_recovery_sell]: the SELL goes to
    [client.post_order] directly, not through [_place_order].  The allowance
    update and the signing are part of the post, as in [OrderRequest]; the
    request carries the book's [min_order_size], which picks FOK or GTC. *)
Definition _place_recovery_sell (token_id : string) (size : Q)
    (bot : LPRewardsBot) : LPRewardsBot :=
  let om := order_manager bot in
  let '(mid_resp, c) := client_get_midpoint token_id (client om) in
  match mid_resp with
  | Raised dead => recovery_failed token_id size dead
                     (with_order_manager bot (with_client om c))
  | Returned mid =>
      let '(tick_resp, c) := client_get_tick_size token_id c in
      match tick_resp with
      | Raised dead => recovery_failed token_id size dead
                         (with_order_manager bot (with_client om c))
      | Returned tick =>
          let sell_price := round_price_down mid tick in
          let sell_price := clamp_price sell_price tick in
          let '(book_resp, c) := client_min_order_size token_id c in
          match book_resp with
          | Raised dead => recovery_failed token_id size dead
                             (with_order_manager bot (with_client om c))
          | Returned min_size =>
              let req := mkRequest token_id sell_price size SELL "" min_size in
              let '(resp, c) := client_post_order req c in
              let bot := with_order_manager bot (with_client om c) in
              match resp with
              | Raised dead => recovery_failed token_id size dead bot
              | Returned (mkPost _ oid) =>
                  let oid :=
                    match oid with
                    | Some s => if String.eqb s "" then None else Some s
                    | None => None
                    end in
                  mkBot (order_manager bot)
                    (set_add token_id (_recovered_token_ids bot))
                    (match oid with
                     | Some s => set_add s (_recovered_order_ids bot)
                     | None => _recovered_order_ids bot
                     end)
                    (dict_set String.eqb token_id (size, oid, sell_price)
                       (_recovery_info bot))
                    (_start_time bot)
              end
          end
      end
  end.

(** [LPRewardsBot._recover_existing_positions], after the positions
    endpoint has answered with [(asset, size)] entries. *)
Definition _recover_existing_positions (entries : list (string * Q))
    (bot : LPRewardsBot) : LPRewardsBot :=
  fold_left
    (fun bot e =>
       let '(token_id, size) := e in
       if Qleb size 0 then bot
       else if String.eqb token_id "" then bot
       else
         let bot :=
           mkBot (order_manager bot)
             (set_add token_id (_recovered_token_ids bot))
             (_recovered_order_ids bot) (_recovery_info bot) (_start_time bot) in
         _place_recovery_sell token_id size bot)
    entries bot.

(** One turn of the loop of [_adopt_recovery_position]; [None] when the
    token has no recovery entry and the loop goes on. *)
Definition adopt_token (clk : Clock) (opp : MarketOpportunity.t)
    (is_yes : bool) (bot : LPRewardsBot) : option LPRewardsBot :=
  let token_id :=
    if is_yes then MarketOpportunity.token_id_yes opp
    else MarketOpportunity.token_id_no opp in
  match dict_get String.eqb token_id (_recovery_info bot) with
  | None => None
  | Some (size, order_id, sell_price) =>
      let om := order_manager bot in
      let '(mid, c) :=
        _get_current_midpoint (MarketOpportunity.token_id_yes opp) (client om) in
      let om := with_client om c in
      let mid :=
        match mid with
        | Some mid => mid
        | None => MarketOpportunity.midpoint opp
        end in
      let cid := MarketOpportunity.condition_id opp in
      let position :=
        MarketPosition.new cid (MarketOpportunity.token_id_yes opp)
          (MarketOpportunity.token_id_no opp) (MarketOpportunity.max_spread opp)
          (MarketOpportunity.min_size opp) (MarketOpportunity.tick_size opp) mid in
      let position := MarketPosition.with_inventory is_yes position size in
      let position := MarketPosition.with_entry_price is_yes position sell_price in
      let position :=
        match order_id with
        | Some oid =>
            if negb (String.eqb oid "") && Qltb 0 sell_price
            then MarketPosition.with_orders position
                   (MarketPosition.orders position
                    ++ [ActiveOrder.mk oid token_id SELL sell_price size cid
                          (now clk) mid])
            else position
        | None => position
        end in
      let om := set_position cid position om in
      Some (mkBot om
              (set_discard (MarketOpportunity.token_id_no opp)
                 (set_discard (MarketOpportunity.token_id_yes opp)
                    (_recovered_token_ids bot)))
              (match order_id with
               | Some oid => set_discard oid (_recovered_order_ids bot)
               | None => _recovered_order_ids bot
               end)
              (dict_del String.eqb token_id (_recovery_info bot))
              (_start_time bot))
  end.

(** [LPRewardsBot._adopt_recovery_position] *)
Definition _adopt_recovery_position (clk : Clock) (opp : MarketOpportunity.t)
    (bot : LPRewardsBot) : LPRewardsBot :=
  match adopt_token clk opp true bot with
  | Some bot => bot
  | None =>
      match adopt_token clk opp false bot with
      | Some bot => bot
      | None => bot
      end
  end.

Definition with_min_size (opp : MarketOpportunity.t) (v : Q)
    : MarketOpportunity.t :=
  MarketOpportunity.mk (MarketOpportunity.condition_id opp)
    (MarketOpportunity.question opp) (MarketOpportunity.token_id_yes opp)
    (MarketOpportunity.token_id_no opp) (MarketOpportunity.midpoint opp)
    (MarketOpportunity.reward_rate opp) v (MarketOpportunity.max_spread opp)
    (MarketOpportunity.book_depth_usdc opp) (MarketOpportunity.current_spread opp)
    (MarketOpportunity.tick_size opp) (MarketOpportunity.neg_risk opp)
    (MarketOpportunity.opportunity_score opp).

(** The loop of [place_initial_orders]. *)
Fixpoint place_initial_loop (clk : Clock) (active_cids : list string)
    (opportunities : list MarketOpportunity.t) (bot : LPRewardsBot)
    : LPRewardsBot :=
  match opportunities with
  | [] => bot
  | opp :: rest =>
      if set_mem (MarketOpportunity.condition_id opp) active_cids
      then place_initial_loop clk active_cids rest bot
      else
        let '(blacklisted, om) :=
          is_blacklisted clk (MarketOpportunity.condition_id opp)
            (order_manager bot) in
        let bot := with_order_manager bot om in
        if blacklisted then place_initial_loop clk active_cids rest bot
        else if set_mem (MarketOpportunity.token_id_yes opp) (_recovered_token_ids bot)
                || set_mem (MarketOpportunity.token_id_no opp) (_recovered_token_ids bot)
        then place_initial_loop clk active_cids rest
               (_adopt_recovery_position clk opp bot)
        else
          let opp :=
            with_min_size opp
              (Qmin (MarketOpportunity.min_size opp) config.MAX_ENTRY_COST) in
          let '(_, om) := place_two_sided_orders clk opp (order_manager bot) in
          place_initial_loop clk active_cids rest (with_order_manager bot om)
  end.

(** [LPRewardsBot.place_initial_orders] *)
Definition place_initial_orders (clk : Clock)
    (opportunities : list MarketOpportunity.t) (bot : LPRewardsBot)
    : LPRewardsBot :=
  let startup_cooldown := config.STARTUP_COOLDOWN_SECONDS in
  if negb (Qeqb (_start_time bot) 0)
     && Qltb (now clk - _start_time bot) startup_cooldown
  then bot
  else if is_global_paused clk (order_manager bot) then bot
  else
    let active_cids := map fst (positions (order_manager bot)) in
    place_initial_loop clk active_cids opportunities bot.

End WithExchange.

(** ** Notions the theorems are stated with *)

(** A position with its BUY orders removed. *)
Definition drop_buys (position : MarketPosition.t) : MarketPosition.t :=
  MarketPosition.with_orders position
    (filter (fun o => negb (is_buy o)) (MarketPosition.orders position)).

(** How many SELL orders of the list are on [token_id]. *)
Definition count_sells (token_id : string) (orders : list ActiveOrder.t) : nat :=
  List.length
    (filter (fun o => is_sell o && String.eqb (ActiveOrder.token_id o) token_id)
       orders).

Definition at_most_one_sell (orders : list ActiveOrder.t) : Prop :=
  forall token_id, (count_sells token_id orders <= 1)%nat.

(** The ledger is a dict (no key twice) and no position tracks two SELLs on
    one token. *)
Definition ledger_ok (om : OrderManager) : Prop :=
  NoDup (map fst (positions om)) /\
  Forall (fun e => at_most_one_sell (MarketPosition.orders (snd e)))
         (positions om).

(** A fill event as the supervisor delivers it: a trade event of the stream
    to [handle_ws_fill], or the batch of a REST sync to
    [handle_filled_orders]. *)
Inductive FillInput : Type :=
| WsFill (clk : Clock) (order_id asset_id side : string) (size_matched price : Q)
| RestFills (clk : Clock) (fills : list FillEvent.t).

Definition apply_fill (ex : Exchange) (om : OrderManager) (e : FillInput)
    : OrderManager :=
  match e with
  | WsFill clk order_id asset_id side size_matched price =>
      handle_ws_fill ex clk order_id asset_id side size_matched price om
  | RestFills clk fills => handle_filled_orders ex clk fills om
  end.

Definition run_fills (ex : Exchange) (events : list FillInput)
    (om : OrderManager) : OrderManager :=
  fold_left (apply_fill ex) events om.

(** The SELL requests of a log that are for one (condition, token). *)
Definition sells_for (cid token_id : string) (reqs : list OrderRequest)
    : list OrderRequest :=
  filter (fun r => Side_eqb (req_side r) SELL
                   && String.eqb (req_condition_id r) cid
                   && String.eqb (req_token_id r) token_id) reqs.

(** [sum(fill.size for fill in fills)], from the left as the source adds. *)
Definition total_size (fills : list FillEvent.t) : Q :=
  fold_left (fun acc f => acc + FillEvent.size f) fills 0.

(** Whether the position tracks a SELL on [token_id] when the event arrives;
    the order a stream event itself reports as filled is not counted. *)
Definition tracks_sell_at (e : FillInput) (token_id : string)
    (position : MarketPosition.t) : bool :=
  match e with
  | WsFill _ order_id _ _ _ _ =>
      has_sell token_id
        (filter (fun o => negb (String.eqb (ActiveOrder.order_id o) order_id))
           (MarketPosition.orders position))
  | RestFills _ _ => has_sell token_id (MarketPosition.orders position)
  end.

(** The log of [c'] is the log of [c] followed by SELL requests only. *)
Definition only_sells_added (c c' : Client) : Prop :=
  exists new,
    submitted c' = submitted c ++ new /\
    forall r, In r new -> req_side r = SELL.

(** The key under which [handle_filled_orders] aggregates a fill. *)
Definition key_of (f : FillEvent.t) : fill_key :=
  (FillEvent.condition_id f, FillEvent.token_id f, FillEvent.side f).

(** A request that is the unwind SELL of one of the aggregated BUY groups. *)
Definition from_buy_group (entries : list (fill_key * Q)) (r : OrderRequest) : Prop :=
  req_side r = SELL /\
  exists total, In ((req_condition_id r, req_token_id r, BUY), total) entries.

(** The sanity checks of [_place_order], on a request. *)
Definition within_caps (r : OrderRequest) : Prop :=
  0 < req_price r /\ req_price r < 1 /\ 0 < req_size r /\
  req_size r <= config.MAX_ORDER_SIZE /\
  req_price r * req_size r <= config.MAX_SINGLE_ORDER_USDC.

(** The SELL that a group of BUY fills on one (condition, token) leads to:
    the whole side inventory, at the unwind price of the fresh midpoint. *)
Definition unwind_request (ex : Exchange) (position : MarketPosition.t)
    (c : Client) (cid token_id : string) (total : Q) : OrderRequest :=
  let is_yes := String.eqb token_id (MarketPosition.token_id_yes position) in
  let mid := fst (fresh_midpoint ex position c) in
  mkRequest token_id
    (_calculate_sell_price mid (MarketPosition.max_spread position)
       (MarketPosition.tick_size position) is_yes)
    (MarketPosition.inventory is_yes position + total)
    SELL cid (MarketPosition.min_size position).

(** ** Concrete scenarios *)

(** An exchange and data API that answer every call: midpoint 0.50, tick
    0.01, every post accepted under the id "new-1", every cancel done, no
    open order listed, every order reported LIVE, [remote] shares of every
    token on chain. *)
Definition calm_exchange (remote : Q) : Exchange :=
  mkExchange
    (fun _ _ => Returned 0.5)
    (fun _ _ => Returned tt)
    (fun _ _ => Returned (mkPost true (Some "new-1"%string)))
    (fun _ _ => Returned (OrderDict "LIVE" (Some 0)))
    (fun _ => Returned (OpenList []))
    (fun _ => Returned [("A-yes"%string, remote)])
    (fun _ _ => Returned 0.01)
    (fun _ _ => Returned 0).



Definition noon : Clock := mkClock 1000 12.

Definition fresh_client : Client := mkClient 0 [] [].

(** Market A of the specification's scenarios: midpoint 0.50, max_spread
    0.03, tick 0.01, min_size 50. *)
Definition market_A : MarketPosition.t :=
  MarketPosition.new "A" "A-yes" "A-no" 0.03 50 0.01 0.5.

Definition buy_A_yes : ActiveOrder.t :=
  ActiveOrder.mk "buy-A" "A-yes" BUY 0.48 50 "A" 900 0.5.
Definition buy_A_no : ActiveOrder.t :=
  ActiveOrder.mk "buy-A-no" "A-no" BUY 0.48 50 "A" 900 0.5.
Definition sell_A_yes (size : Q) : ActiveOrder.t :=
  ActiveOrder.mk "sell-A" "A-yes" SELL 0.5 size "A" 900 0.5.

(** Market A quoting on both sides, nothing held. *)
Definition quoting_A : MarketPosition.t :=
  MarketPosition.with_orders market_A [buy_A_yes; buy_A_no].

(** Market A holding [inv] YES shares bought at 0.48, with the given
    orders. *)
Definition holding_A (inv : Q) (orders : list ActiveOrder.t)
    : MarketPosition.t :=
  MarketPosition.with_orders
    (MarketPosition.with_entry_price true
       (MarketPosition.with_inventory true market_A inv) 0.48)
    orders.

(** An order manager with this ledger, last global fill and failure
    counts, and nothing else. *)
Definition manager (ps : list (string * MarketPosition.t))
    (last_global_fill : Q) (fails : list ((string * string) * Z))
    : OrderManager :=
  mkOrderManager fresh_client ps fails [] [] last_global_fill [].

Definition fresh_bot : LPRewardsBot :=
  mkBot (manager [] 0 []) [] [] [] 0.

Definition two_small_fills : list FillEvent.t :=
  [FillEvent.mk "A-yes" BUY 0.48 30 "A"; FillEvent.mk "A-yes" BUY 0.48 20 "A"].

Definition two_large_fills : list FillEvent.t :=
  [FillEvent.mk "A-yes" BUY 0.48 300 "A"; FillEvent.mk "A-yes" BUY 0.48 300 "A"].

Definition sell_fill_50 : list FillEvent.t :=
  [FillEvent.mk "A-yes" SELL 0.5 50 "A"].

Definition buy_fill_50 : list FillEvent.t :=
  [FillEvent.mk "A-yes" BUY 0.48 50 "A"].

(** * Proofs *)

Lemma Qltb_true a b : Qltb a b = true <-> a < b.
Proof.
  unfold Qltb. rewrite negb_true_iff. split; intros H.
  - apply Qnot_le_lt. intros C. apply Qle_bool_iff in C. congruence.
  - destruct (Qle_bool b a) eqn:E; auto. apply Qle_bool_iff in E. lra.
Qed.

Lemma Qleb_true a b : Qleb a b = true <-> a <= b.
Proof. apply Qle_bool_iff. Qed.

Lemma Qleb_false a b : Qleb a b = false <-> b < a.
Proof.
  unfold Qleb. split; intros H.
  - apply Qnot_le_lt. intros C. apply Qle_bool_iff in C. congruence.
  - destruct (Qle_bool a b) eqn:E; auto. apply Qle_bool_iff in E. lra.
Qed.

Lemma rhe_bounds q :
  inject_Z (round_half_even q) - q <= 1 # 2 /\ q - inject_Z (round_half_even q) <= 1 # 2.
Proof.
  unfold round_half_even.
  pose proof (Qfloor_le q) as Hl. pose proof (Qlt_floor q) as Hu.
  rewrite inject_Z_plus in Hu. change (inject_Z 1) with 1 in Hu.
  destruct (Qcompare (q - inject_Z (Qfloor q)) (1 # 2)) eqn:E.
  - apply Qeq_alt in E. destruct (Z.even (Qfloor q)); 
      rewrite ?inject_Z_plus; change (inject_Z 1) with 1; lra.
  - apply Qlt_alt in E. lra.
  - apply Qgt_alt in E. rewrite inject_Z_plus. change (inject_Z 1) with 1. lra.
Qed.

Lemma rhe_ge_floor q : (Qfloor q <= round_half_even q)%Z.
Proof.
  unfold round_half_even.
  destruct (Qcompare (q - inject_Z (Qfloor q)) (1 # 2)); try destruct (Z.even _); lia.
Qed.

Lemma rhe_int z : round_half_even (inject_Z z) = z.
Proof.
  unfold round_half_even. rewrite Qfloor_Z.
  assert (E : Qcompare (inject_Z z - inject_Z z) (1 # 2) = Lt).
  { apply Qlt_alt. setoid_replace (inject_Z z - inject_Z z) with 0 by ring. reflexivity. }
  rewrite E. reflexivity.
Qed.

Lemma rhe_comp q q' : q == q' -> round_half_even q = round_half_even q'.
Proof.
  intros H. unfold round_half_even. rewrite (Qfloor_comp _ _ H).
  assert (E : Qcompare (q - inject_Z (Qfloor q')) (1 # 2)
            = Qcompare (q' - inject_Z (Qfloor q')) (1 # 2)).
  { apply Qcompare_comp; [rewrite H|]; reflexivity. }
  rewrite E. reflexivity.
Qed.

Lemma pow10_pos n : 0 < pow10 n.
Proof.
  unfold pow10. change 0 with (inject_Z 0). rewrite <- Zlt_Qlt.
  apply Z.pow_pos_nonneg; lia.
Qed.

Lemma py_round_scaled x n :
  py_round x n * pow10 n == inject_Z (round_half_even (x * pow10 n)).
Proof.
  unfold py_round. pose proof (pow10_pos n). field. lra.
Qed.

Lemma py_round_fix x n z : x * pow10 n == inject_Z z -> py_round x n == x.
Proof.
  intros H. pose proof (pow10_pos n) as Hp.
  pose proof (py_round_scaled x n) as Hs.
  rewrite (rhe_comp _ _ H), rhe_int, <- H in Hs.
  apply Qmult_inj_r in Hs; auto. lra.
Qed.

(** the integer [floor(round(x, 8))]: at least [floor x], and above [x] by at
    most the rounding slack. *)
Lemma floor_round8 x :
  let k := Qfloor (py_round x 8) in
  inject_Z k <= x + (5 # 1000000000) /\ x < inject_Z k + 1.
Proof.
  intros k.
  pose proof (Qfloor_le (py_round x 8)) as Hl. fold k in Hl.
  pose proof (Qlt_floor (py_round x 8)) as Hu. fold k in Hu.
  rewrite inject_Z_plus in Hu. change (inject_Z 1) with 1 in Hu.
  pose proof (py_round_scaled x 8) as Hs.
  pose proof (rhe_bounds (x * pow10 8)) as [Hb1 Hb2].
  pose proof (rhe_ge_floor (x * pow10 8)) as Hf.
  change (pow10 8) with 100000000 in *.
  split.
  - rewrite <- Hs in Hb1. lra.
  - destruct (Qlt_le_dec x (inject_Z k + 1)) as [|C]; auto. exfalso.
    assert (C' : inject_Z ((k + 1) * 100000000) <= x * 100000000).
    { rewrite inject_Z_mult, inject_Z_plus. change (inject_Z 1) with 1.
      change (inject_Z 100000000) with 100000000. lra. }
    apply Qfloor_resp_le in C'. rewrite Qfloor_Z in C'.
    assert (C2 : inject_Z ((k + 1) * 100000000) <= inject_Z (round_half_even (x * 100000000))).
    { rewrite <- Zle_Qle. lia. }
    rewrite <- Hs in C2. rewrite inject_Z_mult, inject_Z_plus in C2.
    change (inject_Z 1) with 1 in C2. change (inject_Z 100000000) with 100000000 in C2. lra.
Qed.

Lemma round_price_down_spec price tick :
  valid_tick tick ->
  exists k : Z,
    round_price_down price tick == inject_Z k * tick /\
    inject_Z k * tick <= price + (5 # 1000000000) * tick /\
    price < inject_Z k * tick + tick /\
    k = Qfloor (py_round (price / tick) 8).
Proof.
  intros [Ht [z Hz]]. unfold round_price_down.
  set (x := price / tick). set (k := Qfloor (py_round x 8)).
  exists k.
  assert (Hx : x * tick == price) by (unfold x; field; lra).
  destruct (floor_round8 x) as [H1 H2]. fold k in H1, H2.
  split; [|split; [|split]].
  - apply (py_round_fix _ 6 (k * z)%Z).
    rewrite inject_Z_mult, <- Hz. ring.
  - rewrite <- Hx. nra.
  - rewrite <- Hx. nra.
  - reflexivity.
Qed.

Ltac qminmax :=
  repeat match goal with
  | |- context [Qmax ?a ?b] =>
      let H := fresh "Hmax" in
      destruct (Q.max_spec a b) as [[? H]|[? H]]; rewrite H in *; clear H
  | |- context [Qmin ?a ?b] =>
      let H := fresh "Hmin" in
      destruct (Q.min_spec a b) as [[? H]|[? H]]; rewrite H in *; clear H
  end.

Lemma clamp_price_spec p t :
  (p <= t /\ t <= 1 - t /\ clamp_price p t == t) \/
  (t < p /\ p <= 1 - t /\ clamp_price p t == p) \/
  (t <= 1 - t /\ 1 - t <= p /\ clamp_price p t == 1 - t) \/
  (1 - t < t /\ clamp_price p t == t).
Proof.
  unfold clamp_price.
  destruct (Q.min_spec p (1 - t)) as [[H1 E1]|[H1 E1]];
  destruct (Q.max_spec t (Qmin p (1 - t))) as [[H2 E2]|[H2 E2]];
  rewrite E1 in H2; rewrite E2, ?E1; clear E1 E2;
  destruct (Qlt_le_dec (1 - t) t).
  all: try (left; repeat split; lra).
  all: try (right; left; repeat split; lra).
  all: try (right; right; left; repeat split; lra).
  all: try (right; right; right; repeat split; lra).

Qed.

Lemma compute_buffer_ge_tick ms t : t <= _compute_buffer ms t.
Proof. unfold _compute_buffer. apply Q.le_max_r. Qed.




Lemma py_round8_error x :
  py_round x 8 - x <= 5 # 1000000000 /\ x - py_round x 8 <= 5 # 1000000000.
Proof.
  pose proof (py_round_scaled x 8) as Hs.
  pose proof (rhe_bounds (x * pow10 8)) as [Hb1 Hb2].
  rewrite <- Hs in Hb1, Hb2. change (pow10 8) with 100000000 in *. lra.
Qed.

(** Inputs on which the BUY price of a side is certainly below its midpoint. *)
Lemma buy_price_below m ms t :
  valid_tick t -> t < m -> m < 1 ->
  1 # 100000000 <= ms - _compute_buffer ms t ->
  buy_price_for m ms t < m.
Proof.
  intros Hv Hlo Hhi Heff. pose proof Hv as [Ht _].
  unfold buy_price_for.
  pose proof (compute_buffer_ge_tick ms t) as Hb.
  set (buffer := _compute_buffer ms t) in *.
  destruct (round_price_down_spec (m - (ms - buffer)) t Hv) as (k & Ek & Hk1 & Hk2 & _).
  set (r := round_price_down (m - (ms - buffer)) t) in *.
  assert (Hr : r < m) by nra.
  set (p0 := clamp_price r t).
  assert (Hp0 : t <= p0 /\ p0 < m).
  { unfold p0. destruct (clamp_price_spec r t) as [H|[H|[H|H]]]; lra. }
  destruct (Qleb ms (py_round (m - p0) 8)) eqn:E; [|lra].
  apply Qleb_true in E. pose proof (py_round8_error (m - p0)) as [He _].
  destruct (clamp_price_spec (p0 + t) t) as [H|[H|[H|H]]]; lra.
Qed.

Lemma prices_accepted_iff m ms t :
  prices_accepted m ms t = true <->
  buy_price_for m ms t < m /\ buy_price_for (1 - m) ms t < 1 - m.
Proof.
  unfold prices_accepted, calculate_order_prices.
  rewrite negb_true_iff, orb_false_iff, !Qleb_false. tauto.
Qed.

Lemma prices_accepted_sufficient m ms t :
  valid_tick t -> t < m -> m < 1 - t ->
  1 # 100000000 <= ms - _compute_buffer ms t ->
  prices_accepted m ms t = true.
Proof.
  intros Hv Hlo Hhi Heff. pose proof Hv as [Ht _].
  apply prices_accepted_iff. split; apply buy_price_below; auto; lra.
Qed.




(** ** Dicts *)

Lemma pair_eqb_refl k : pair_eqb k k = true.
Proof. unfold pair_eqb. now rewrite !String.eqb_refl. Qed.


Section DictFacts.
Context {K V : Type} (eqb : K -> K -> bool).
Hypothesis eqb_eq : forall a b, eqb a b = true <-> a = b.

Lemma dict_get_set_same k v (d : list (K * V)) :
  dict_get eqb k (dict_set eqb k v d) = Some v.
Proof.
  induction d as [|[k' v'] d IH]; cbn.
  - assert (E : eqb k k = true) by now apply eqb_eq. now rewrite E.
  - destruct (eqb k' k) eqn:E; cbn; rewrite E; auto.
Qed.

Lemma dict_get_set_other k k' v (d : list (K * V)) :
  k' <> k -> dict_get eqb k' (dict_set eqb k v d) = dict_get eqb k' d.
Proof.
  intros N. induction d as [|[k0 v0] d IH]; cbn.
  - destruct (eqb k k') eqn:E; auto. apply eqb_eq in E. congruence.
  - destruct (eqb k0 k) eqn:E; cbn.
    + apply eqb_eq in E. subst k0.
      destruct (eqb k k') eqn:E'; auto. apply eqb_eq in E'. congruence.
    + destruct (eqb k0 k'); auto.
Qed.


Lemma dict_get_del_other k k' (d : list (K * V)) :
  k' <> k -> dict_get eqb k' (dict_del eqb k d) = dict_get eqb k' d.
Proof.
  intros N. unfold dict_del. induction d as [|[k0 v0] d IH]; cbn; auto.
  destruct (eqb k0 k) eqn:E; cbn.
  - apply eqb_eq in E. subst k0.
    destruct (eqb k k') eqn:E'; auto. apply eqb_eq in E'. congruence.
  - destruct (eqb k0 k'); auto.
Qed.

Lemma dict_get_In k v (d : list (K * V)) :
  dict_get eqb k d = Some v -> In (k, v) d.
Proof.
  induction d as [|[k' v'] d IH]; cbn; [discriminate|].
  destruct (eqb k' k) eqn:E.
  - apply eqb_eq in E. subst. intros [= ->]. now left.
  - intros H. right. auto.
Qed.

Lemma In_dict_get k v (d : list (K * V)) :
  NoDup (map fst d) -> In (k, v) d -> dict_get eqb k d = Some v.
Proof.
  induction d as [|[k' v'] d IH]; cbn; [tauto|].
  intros ND [E|H].
  - inversion E; subst. assert (X : eqb k k = true) by now apply eqb_eq. now rewrite X.
  - inversion ND; subst.
    destruct (eqb k' k) eqn:E.
    + apply eqb_eq in E. subst. exfalso. apply H2.
      change k with (fst (k, v)). now apply in_map.
    + auto.
Qed.

Lemma dict_set_keys k v (d : list (K * V)) :
  dict_get eqb k d <> None -> map fst (dict_set eqb k v d) = map fst d.
Proof.
  induction d as [|[k' v'] d IH]; cbn; [congruence|].
  destruct (eqb k' k) eqn:E; cbn; auto. intros H. f_equal. auto.
Qed.

Lemma dict_set_keys_new k v (d : list (K * V)) :
  dict_get eqb k d = None -> map fst (dict_set eqb k v d) = map fst d ++ [k].
Proof.
  induction d as [|[k' v'] d IH]; cbn; auto.
  destruct (eqb k' k) eqn:E; cbn; [discriminate|]. intros H. f_equal. auto.
Qed.

Lemma dict_get_None_notin k (d : list (K * V)) :
  dict_get eqb k d = None -> ~ In k (map fst d).
Proof.
  induction d as [|[k' v'] d IH]; cbn; auto.
  destruct (eqb k' k) eqn:E; [discriminate|].
  intros H [X|X]; [|now apply IH].
  subst. assert (Y : eqb k k = true) by now apply eqb_eq. congruence.
Qed.

Lemma dict_set_NoDup k v (d : list (K * V)) :
  NoDup (map fst d) -> NoDup (map fst (dict_set eqb k v d)).
Proof.
  intros ND. destruct (dict_get eqb k d) eqn:E.
  - rewrite dict_set_keys; auto. congruence.
  - rewrite dict_set_keys_new; auto.
    apply NoDup_app; auto.
    + constructor; [intros []|constructor].
    + intros x Hx [<-|[]]. now apply dict_get_None_notin in E.
Qed.

Lemma dict_set_In k v (d : list (K * V)) e :
  In e (dict_set eqb k v d) -> In e d \/ snd e = v.
Proof.
  induction d as [|[k' v'] d IH]; cbn.
  - intros [<-|[]]. now right.
  - destruct (eqb k' k); cbn.
    + intros [<-|H]; [now right|left; now right].
    + intros [<-|H]; [left; now left|]. destruct (IH H); [left; now right|now right].
Qed.

Lemma dict_del_NoDup k (d : list (K * V)) :
  NoDup (map fst d) -> NoDup (map fst (dict_del eqb k d)).
Proof.
  unfold dict_del. induction d as [|[k' v'] d IH]; cbn; auto.
  intros ND. inversion ND; subst.
  destruct (negb (eqb k' k)); cbn; auto.
  constructor; auto. intros X. apply H1.
  apply in_map_iff in X. destruct X as [e [E He]].
  apply filter_In in He. apply in_map_iff. exists e. tauto.
Qed.

End DictFacts.

Lemma Qeqb_true a b : Qeqb a b = true <-> a == b.
Proof. apply Qeq_bool_iff. Qed.

Lemma string_eqb_eq a b : String.eqb a b = true <-> a = b.
Proof. apply String.eqb_eq. Qed.

Lemma get_set_position_same cid p om :
  get_position cid (set_position cid p om) = Some p.
Proof. apply dict_get_set_same, string_eqb_eq. Qed.





Section Status.
Variable ex : Exchange.



End Status.

Lemma with_client_same om : with_client om (client om) = om.
Proof. destruct om; reflexivity. Qed.

Section ClientFacts.
Variable ex : Exchange.

Lemma cancel_each_submitted orders c :
  submitted (cancel_each ex orders c) = submitted c.
Proof.
  unfold cancel_each. revert c.
  induction orders as [|o os IH]; intros c; cbn; auto.
  rewrite IH. reflexivity.
Qed.

Lemma cancel_buy_orders_eq position c :
  cancel_buy_orders ex position c
  = (drop_buys position,
     cancel_each ex (filter is_buy (MarketPosition.orders position)) c).
Proof. reflexivity. Qed.

Lemma cancel_all_buys_in_spec ps c :
  fst (cancel_all_buys_in ex ps c) = map (fun e => (fst e, drop_buys (snd e))) ps /\
  submitted (snd (cancel_all_buys_in ex ps c)) = submitted c.
Proof.
  revert c. induction ps as [|[cid p] ps IH]; intros c; [cbn; auto|].
  cbn [cancel_all_buys_in]. rewrite cancel_buy_orders_eq.
  specialize (IH (cancel_each ex (filter is_buy (MarketPosition.orders p)) c)).
  destruct (cancel_all_buys_in ex ps _) as [rest c']. cbn in *.
  destruct IH as [-> ->]. split; auto. apply cancel_each_submitted.
Qed.

Lemma cancel_all_buys_eq om :
  exists c, cancel_all_buys ex om
            = with_positions (with_client om c)
                (map (fun e => (fst e, drop_buys (snd e))) (positions om)) /\
            submitted c = submitted (client om).
Proof.
  unfold cancel_all_buys.
  pose proof (cancel_all_buys_in_spec (positions om) (client om)) as [H1 H2].
  destruct (cancel_all_buys_in ex (positions om) (client om)) as [ps c]. cbn in *.
  exists c. subst ps. auto.
Qed.

Lemma fresh_midpoint_submitted position c :
  submitted (snd (fresh_midpoint ex position c)) = submitted c.
Proof.
  unfold fresh_midpoint, _get_current_midpoint, client_get_midpoint.
  destruct (ex_get_midpoint ex (calls c) _) as [d|mid]; cbn; auto.
  destruct (Qleb mid 0 || Qleb 1 mid); reflexivity.
Qed.

Lemma get_order_status_submitted oid c :
  submitted (snd (_get_order_status ex oid c)) = submitted c.
Proof.
  unfold _get_order_status, client_get_order.
  destruct (ex_get_order ex (calls c) oid) as [d|[st [sm|]|]]; cbn [fst snd]; auto.
  repeat match goal with |- context [if ?b then _ else _] => destruct b end; reflexivity.
Qed.

Lemma track_order_spec position order c :
  exists (b : bool) (c' : Client),
    _track_order ex position order c
    = (b, (if b then MarketPosition.with_orders position
                       (MarketPosition.orders position ++ [order])
           else position), c') /\
    submitted c' = submitted c.
Proof.
  unfold _track_order.
  destruct (config.MAX_ORDERS_PER_MARKET <=? _)%nat; cbn.
  - exists false. eexists. split; reflexivity.
  - exists true. eexists. split; reflexivity.
Qed.

(** What a call of [_place_order] does to the log and what it returns. *)
Lemma place_order_spec clk token_id price size side cid mid mos om :
  let req := mkRequest token_id price size side cid mos in
  let posted :=
    negb (order_refused price size)
    && negb (inventory_cap_refuses token_id size side cid om) in
  exists res c,
    _place_order ex clk token_id price size side cid mid mos om
    = (res, with_client om c) /\
    submitted c = (if posted then submitted (client om) ++ [req]
                   else submitted (client om)) /\
    (posted = false -> res = None) /\
    (forall o, res = Some o ->
       ActiveOrder.token_id o = token_id /\ ActiveOrder.side o = side /\
       ActiveOrder.size o = size /\ ActiveOrder.price o = price).
Proof.
  intros req posted. unfold _place_order. subst posted.
  destruct (order_refused price size); cbn [negb andb].
  { exists None, (client om). rewrite with_client_same.
    repeat split; auto; discriminate. }
  destruct (inventory_cap_refuses token_id size side cid om); cbn [negb andb].
  { exists None, (client om). rewrite with_client_same.
    repeat split; auto; discriminate. }
  fold req. unfold client_post_order.
  destruct (ex_post_order ex (calls (client om)) req) as [d|[[|] [oid|]]];
    try (eexists None, _; repeat split; try reflexivity; discriminate).
  destruct (String.eqb oid "");
    [eexists None, _; repeat split; try reflexivity; discriminate|].
  eexists (Some _), _. split; [reflexivity|]. split; [reflexivity|].
  split; [discriminate|]. intros o [= <-]. cbn. auto.
Qed.

Lemma place_and_track_spec clk position token_id price size side cid mid mos om :
  let req := mkRequest token_id price size side cid mos in
  let posted :=
    negb (order_refused price size)
    && negb (inventory_cap_refuses token_id size side cid om) in
  exists placed position' c,
    place_and_track ex clk position token_id price size side cid mid mos om
    = (placed, position', with_client om c) /\
    submitted c = (if posted then submitted (client om) ++ [req]
                   else submitted (client om)) /\
    (position' = position \/
     exists o, position' = MarketPosition.with_orders position
                             (MarketPosition.orders position ++ [o]) /\
               ActiveOrder.token_id o = token_id /\ ActiveOrder.side o = side /\
               ActiveOrder.size o = size).
Proof.
  intros req posted. unfold place_and_track.
  destruct (place_order_spec clk token_id price size side cid mid mos om)
    as (res & c & E & Hs & Hn & Ho).
  rewrite E. fold req in Hs. fold posted in Hs.
  destruct res as [o|].
  - destruct (track_order_spec position o (client (with_client om c)))
      as (b & c' & Et & Hs').
    rewrite Et.
    exists true, (if b then MarketPosition.with_orders position
                              (MarketPosition.orders position ++ [o])
                  else position), c'.
    split; [destruct om; reflexivity|]. split.
    + rewrite Hs'. exact Hs.
    + destruct b; [right|left; reflexivity].
      exists o. destruct (Ho o eq_refl) as (? & ? & ? & ?). auto.
  - exists false, position, c. auto.
Qed.

End ClientFacts.

Lemma Side_eqb_refl s : Side_eqb s s = true.
Proof. destruct s; reflexivity. Qed.

Lemma fill_key_eqb_refl k : fill_key_eqb k k = true.
Proof.
  destruct k as [[c t] s]. cbn. now rewrite !String.eqb_refl, Side_eqb_refl.
Qed.

Lemma fill_key_eqb_eq a b : fill_key_eqb a b = true <-> a = b.
Proof.
  destruct a as [[c1 t1] s1], b as [[c2 t2] s2]. cbn.
  rewrite !andb_true_iff, !String.eqb_eq. split.
  - intros [[-> ->] H]. destruct s1, s2; try discriminate; reflexivity.
  - intros [= -> -> ->]. now rewrite Side_eqb_refl.
Qed.

Lemma aggregate_same_key k fills a :
  (forall f, In f fills -> key_of f = k) ->
  aggregate_fills fills [(k, a)]
  = [(k, fold_left (fun acc f => acc + FillEvent.size f) fills a)].
Proof.
  revert a. induction fills as [|f fills IH]; intros a H; cbn; auto.
  assert (E : key_of f = k) by (apply H; now left). unfold key_of in E.
  rewrite E. rewrite fill_key_eqb_refl. apply IH.
  intros g Hg. apply H. now right.
Qed.

Lemma aggregate_one_key k fills :
  fills <> [] ->
  (forall f, In f fills -> key_of f = k) ->
  aggregate_fills fills [] = [(k, total_size fills)].
Proof.
  destruct fills as [|f fills]; [congruence|]. intros _ H.
  cbn [aggregate_fills dict_get dict_set].
  assert (E : key_of f = k) by (apply H; now left). unfold key_of in E.
  rewrite E. rewrite aggregate_same_key.
  - reflexivity.
  - intros g Hg. apply H. now right.
Qed.

Lemma has_sell_drop_buys token orders :
  has_sell token (filter (fun o => negb (is_buy o)) orders) = has_sell token orders.
Proof.
  unfold has_sell. induction orders as [|o os IH]; cbn; auto.
  destruct (is_buy o) eqn:E; cbn; rewrite IH; auto.
  unfold is_buy, is_sell in *. destruct (ActiveOrder.side o); try discriminate.
  reflexivity.
Qed.

Lemma orders_check_runaway clk b p :
  MarketPosition.orders (check_runaway clk b p) = MarketPosition.orders p.
Proof.
  unfold check_runaway. destruct (_ <=? _)%nat; destruct b; reflexivity.
Qed.

Lemma client_cleanup om : client (cleanup_positions om) = client om.
Proof. reflexivity. Qed.

Section FillGroup.
Variable ex : Exchange.


Lemma handle_fill_group_buy_submitted clk om cid token_id total position :
  get_position cid om = Some position ->
  let req := unwind_request ex position (client om) cid token_id total in
  submitted (client (handle_fill_group ex clk om ((cid, token_id, BUY), total)))
  = if has_sell token_id (MarketPosition.orders position)
    then submitted (client om)
    else if order_refused (req_price req) (req_size req)
         then submitted (client om)
         else submitted (client om) ++ [req].
Proof.
  intros Hget req. unfold handle_fill_group. rewrite Hget.
  pose proof (fresh_midpoint_submitted ex position (client om)) as Hfm.
  unfold req, unwind_request.
  destruct (fresh_midpoint ex position (client om)) as [mid c1]. cbn [fst snd] in *.
  rewrite cancel_buy_orders_eq.
  set (is_yes := String.eqb token_id (MarketPosition.token_id_yes position)).
  set (p1 := drop_buys _).
  set (c2 := cancel_each ex _ _).
  assert (Hc2 : submitted c2 = submitted (client om)).
  { unfold c2. rewrite cancel_each_submitted. exact Hfm. }
  set (om1 := set_position cid p1 (with_client (with_client om c1) c2)).
  set (om2 := if config.GLOBAL_CIRCUIT_BREAKER then _ else om1).
  assert (Hom2 : submitted (client om2) = submitted (client om)).
  { unfold om2. cbn [config.GLOBAL_CIRCUIT_BREAKER].
    destruct (cancel_all_buys_eq ex (with_last_global_fill om1 (now clk)))
      as (c3 & -> & Hc3). cbn in *. congruence. }
  rewrite orders_check_runaway.
  assert (Ho : has_sell token_id (MarketPosition.orders p1)
               = has_sell token_id (MarketPosition.orders position)).
  { unfold p1, drop_buys. destruct is_yes; cbn; apply has_sell_drop_buys. }
  rewrite Ho. destruct (has_sell token_id (MarketPosition.orders position)).
  { exact Hom2. }
  match goal with |- context [place_and_track ex clk ?p ?t ?pr ?sz ?sd ?cd ?md ?ms ?o] =>
    destruct (place_and_track_spec ex clk p t pr sz sd cd md ms o)
      as (placed & p' & c' & E & Hs & _)
  end.
  rewrite E. cbn [client set_position with_positions with_client].
  rewrite Hs. cbn [inventory_cap_refuses negb andb]. rewrite andb_true_r.
  rewrite Hom2.
  assert (E1 : forall b p, MarketPosition.max_spread (check_runaway clk b p)
                           = MarketPosition.max_spread p).
  { intros b p. unfold check_runaway. destruct (_ <=? _)%nat; destruct b; reflexivity. }
  assert (E2 : forall b p, MarketPosition.tick_size (check_runaway clk b p)
                           = MarketPosition.tick_size p).
  { intros b p. unfold check_runaway. destruct (_ <=? _)%nat; destruct b; reflexivity. }
  assert (E3 : forall b p, MarketPosition.min_size (check_runaway clk b p)
                           = MarketPosition.min_size p).
  { intros b p. unfold check_runaway. destruct (_ <=? _)%nat; destruct b; reflexivity. }
  rewrite E1, E2, E3.
  assert (E4 : MarketPosition.max_spread p1 = MarketPosition.max_spread position)
    by (unfold p1; destruct is_yes; reflexivity).
  assert (E5 : MarketPosition.tick_size p1 = MarketPosition.tick_size position)
    by (unfold p1; destruct is_yes; reflexivity).
  assert (E6 : MarketPosition.min_size p1 = MarketPosition.min_size position)
    by (unfold p1; destruct is_yes; reflexivity).
  rewrite E4, E5, E6.
  assert (E7 : forall v, MarketPosition.inventory is_yes
             (MarketPosition.with_fill_times is_yes
                (MarketPosition.with_entry_price is_yes
                   (MarketPosition.with_inventory is_yes
                      (MarketPosition.with_last_midpoint position mid) v) mid)
                (MarketPosition.fill_times is_yes
                   (MarketPosition.with_entry_price is_yes
                      (MarketPosition.with_inventory is_yes
                         (MarketPosition.with_last_midpoint position mid) v) mid)
                 ++ [now clk])) = v).
  { intros v. destruct is_yes; reflexivity. }
  rewrite E7.
  assert (E8 : MarketPosition.inventory is_yes
                 (MarketPosition.with_last_midpoint position mid)
               = MarketPosition.inventory is_yes position)
    by (destruct is_yes; reflexivity).
  rewrite E8. cbn [req_price req_size].
  match goal with |- context [order_refused ?a ?b] =>
    destruct (order_refused a b) end; reflexivity.
Qed.

End FillGroup.

(** ** SELL counts *)

Lemma count_sells_filter_le token f orders :
  (count_sells token (filter f orders) <= count_sells token orders)%nat.
Proof.
  unfold count_sells. induction orders as [|o os IH]; cbn; auto.
  destruct (f o); cbn; destruct (is_sell o && _); cbn; lia.
Qed.

Lemma count_sells_set_order_size token oid v orders :
  count_sells token (set_order_size oid v orders) = count_sells token orders.
Proof.
  unfold count_sells. induction orders as [|o os IH]; cbn [set_order_size]; auto.
  destruct (String.eqb (ActiveOrder.order_id o) oid).
  - destruct o as [a tk sd b c d e g]. unfold is_sell. cbn.
    destruct (Side_eqb sd SELL && String.eqb tk token); reflexivity.
  - cbn [filter]. destruct (is_sell o && _); cbn [List.length]; congruence.
Qed.

Lemma has_sell_set_order_size token oid v orders :
  has_sell token (set_order_size oid v orders) = has_sell token orders.
Proof.
  unfold has_sell. induction orders as [|o os IH]; cbn [set_order_size]; auto.
  destruct (String.eqb (ActiveOrder.order_id o) oid).
  - cbn [existsb]. destruct o; reflexivity.
  - cbn [existsb]. now rewrite IH.
Qed.

Lemma has_sell_count token orders :
  has_sell token orders = false <-> count_sells token orders = 0%nat.
Proof.
  unfold has_sell, count_sells. induction orders as [|o os IH]; cbn; [tauto|].
  destruct (is_sell o && _); cbn; [split; discriminate|exact IH].
Qed.

Lemma has_sell_filter_true token f orders :
  has_sell token (filter f orders) = true -> has_sell token orders = true.
Proof.
  unfold has_sell. rewrite !existsb_exists.
  intros [o [H1 H2]]. apply filter_In in H1. exists o. tauto.
Qed.

Lemma count_sells_app token os os' :
  count_sells token (os ++ os') = (count_sells token os + count_sells token os')%nat.
Proof. unfold count_sells. now rewrite filter_app, length_app. Qed.

Lemma at_most_one_sell_filter f orders :
  at_most_one_sell orders -> at_most_one_sell (filter f orders).
Proof.
  intros H t. specialize (H t). pose proof (count_sells_filter_le t f orders). lia.
Qed.

Lemma at_most_one_sell_set_order_size oid v orders :
  at_most_one_sell orders -> at_most_one_sell (set_order_size oid v orders).
Proof. intros H t. rewrite count_sells_set_order_size. apply H. Qed.

Lemma at_most_one_sell_add o orders :
  at_most_one_sell orders ->
  has_sell (ActiveOrder.token_id o) orders = false ->
  at_most_one_sell (orders ++ [o]).
Proof.
  intros H Hs t. rewrite count_sells_app. specialize (H t).
  unfold count_sells at 2. cbn.
  destruct (is_sell o && String.eqb (ActiveOrder.token_id o) t) eqn:E; cbn; [|lia].
  apply andb_true_iff in E. destruct E as [_ E]. apply String.eqb_eq in E. subst t.
  apply has_sell_count in Hs. lia.
Qed.

(** ** The ledger invariant *)

Lemma ledger_ok_positions om om' :
  positions om' = positions om -> ledger_ok om -> ledger_ok om'.
Proof. unfold ledger_ok. now intros ->. Qed.

Lemma ledger_ok_set_position cid p om :
  ledger_ok om -> at_most_one_sell (MarketPosition.orders p) ->
  ledger_ok (set_position cid p om).
Proof.
  intros [ND F] Hp. split; cbn.
  - apply dict_set_NoDup; auto. apply string_eqb_eq.
  - apply Forall_forall. intros e He.
    apply dict_set_In in He. destruct He as [He| ->]; auto.
    rewrite Forall_forall in F. auto.
Qed.

Lemma ledger_ok_filter f om :
  ledger_ok om -> ledger_ok (with_positions om (filter f (positions om))).
Proof.
  intros [ND F]. split; cbn.
  - clear F. induction (positions om) as [|[k v] d IH]; cbn; auto.
    inversion ND; subst. destruct (f (k, v)); cbn; auto.
    constructor; auto. intros X. apply H1.
    apply in_map_iff in X. destruct X as [e [E He]].
    apply filter_In in He. apply in_map_iff. exists e. tauto.
  - apply Forall_forall. intros e He. apply filter_In in He.
    rewrite Forall_forall in F. apply F. tauto.
Qed.

Lemma ledger_ok_del cid om :
  ledger_ok om ->
  ledger_ok (with_positions om (dict_del String.eqb cid (positions om))).
Proof. apply ledger_ok_filter. Qed.

Lemma ledger_ok_cleanup om : ledger_ok om -> ledger_ok (cleanup_positions om).
Proof. apply ledger_ok_filter. Qed.

Lemma at_most_one_sell_drop_buys p :
  at_most_one_sell (MarketPosition.orders p) ->
  at_most_one_sell (MarketPosition.orders (drop_buys p)).
Proof. intros H. unfold drop_buys. cbn. now apply at_most_one_sell_filter. Qed.

Lemma ledger_ok_drop_all_buys om c :
  ledger_ok om ->
  ledger_ok (with_positions (with_client om c)
               (map (fun e => (fst e, drop_buys (snd e))) (positions om))).
Proof.
  intros [ND F]. split; cbn.
  - rewrite map_map. cbn. exact ND.
  - apply Forall_forall. intros e He. apply in_map_iff in He.
    destruct He as [e0 [<- He0]]. cbn. apply at_most_one_sell_drop_buys.
    rewrite Forall_forall in F. auto.
Qed.

Lemma ledger_ok_get cid p om :
  ledger_ok om -> get_position cid om = Some p ->
  at_most_one_sell (MarketPosition.orders p).
Proof.
  intros [_ F] H. apply dict_get_In in H; [|apply string_eqb_eq].
  rewrite Forall_forall in F. apply (F (cid, p) H).
Qed.

Section Preserve.
Variable ex : Exchange.

Lemma ledger_ok_cancel_all_buys om :
  ledger_ok om -> ledger_ok (cancel_all_buys ex om).
Proof.
  intros H. destruct (cancel_all_buys_eq ex om) as (c & -> & _).
  now apply ledger_ok_drop_all_buys.
Qed.

(** Every path through which a fill handler places its unwind SELL: the
    position stays with at most one SELL per token, and the manager is
    touched in its client only. *)
Lemma place_unwind_preserves clk position token_id price size cid mid mos om :
  at_most_one_sell (MarketPosition.orders position) ->
  has_sell token_id (MarketPosition.orders position) = false ->
  exists placed position' c,
    place_and_track ex clk position token_id price size SELL cid mid mos om
    = (placed, position', with_client om c) /\
    at_most_one_sell (MarketPosition.orders position').
Proof.
  intros H Hs.
  destruct (place_and_track_spec ex clk position token_id price size SELL cid mid mos om)
    as (placed & p' & c & E & _ & Hp).
  exists placed, p', c. split; auto.
  destruct Hp as [->|(o & -> & Ht & _)]; auto.
  cbn. apply at_most_one_sell_add; auto. now rewrite Ht.
Qed.

End Preserve.

Lemma get_set_position_other c cid p om :
  c <> cid -> get_position c (set_position cid p om) = get_position c om.
Proof. intros N. apply dict_get_set_other; auto. apply string_eqb_eq. Qed.

Lemma dict_get_map_values (f : MarketPosition.t -> MarketPosition.t) c ps :
  dict_get String.eqb c (map (fun e => (fst e, f (snd e))) ps)
  = option_map f (dict_get String.eqb c ps).
Proof.
  induction ps as [|[k v] ps IH]; cbn; auto.
  destruct (String.eqb k c); auto.
Qed.

Lemma has_sell_app token os os' :
  has_sell token (os ++ os') = has_sell token os || has_sell token os'.
Proof. unfold has_sell. apply existsb_app. Qed.

Lemma orders_drop_buys p :
  MarketPosition.orders (drop_buys p)
  = filter (fun o => negb (is_buy o)) (MarketPosition.orders p).
Proof. reflexivity. Qed.

Lemma has_sell_orders_drop_buys token p :
  has_sell token (MarketPosition.orders (drop_buys p))
  = has_sell token (MarketPosition.orders p).
Proof. rewrite orders_drop_buys. apply has_sell_drop_buys. Qed.

Section FillGroupSpec.
Variable ex : Exchange.

(** What one turn of the REST fill loop does: the ledger invariant stays,
    the log grows by at most the unwind SELL of this group, which is
    posted only when the position tracked no SELL on the token, and no
    tracked SELL is ever dropped. *)
Lemma handle_fill_group_spec clk om cid token_id side total :
  ledger_ok om ->
  let om' := handle_fill_group ex clk om ((cid, token_id, side), total) in
  ledger_ok om' /\
  (exists new,
     submitted (client om') = submitted (client om) ++ new /\
     (new = [] \/
      exists r position,
        new = [r] /\ side = BUY /\
        req_side r = SELL /\ req_condition_id r = cid /\ req_token_id r = token_id /\
        get_position cid om = Some position /\
        has_sell token_id (MarketPosition.orders position) = false)) /\
  (forall c t pos,
     get_position c om = Some pos ->
     has_sell t (MarketPosition.orders pos) = true ->
     exists pos', get_position c om' = Some pos' /\
                  has_sell t (MarketPosition.orders pos') = true).
Proof.
  intros Hok om'.
  destruct (get_position cid om) as [position|] eqn:Hget.
  2:{ assert (E : om' = om) by (unfold om', handle_fill_group; now rewrite Hget).
      rewrite E. split; auto. split.
      - exists []. rewrite app_nil_r. auto.
      - intros c t pos H1 H2. eauto. }
  pose proof (ledger_ok_get _ _ _ Hok Hget) as Hpos.
  destruct side.
  - (* BUY *)
    pose proof (handle_fill_group_buy_submitted ex clk om cid token_id total
                  position Hget) as Hsub.
    fold om' in Hsub. cbv zeta in Hsub.
    unfold om', handle_fill_group in *. rewrite Hget in *.
    destruct (fresh_midpoint ex position (client om)) as [mid c1].
    rewrite cancel_buy_orders_eq in *.
    set (is_yes := String.eqb token_id (MarketPosition.token_id_yes position)) in *.
    set (p1 := drop_buys _) in *.
    set (c2 := cancel_each ex _ _) in *.
    set (om1 := set_position cid p1 (with_client (with_client om c1) c2)) in *.
    cbn [config.GLOBAL_CIRCUIT_BREAKER] in *.
    destruct (cancel_all_buys_eq ex (with_last_global_fill om1 (now clk)))
      as (c3 & Eom2 & _).
    rewrite Eom2 in *. clear Eom2.
    set (om2 := with_positions _ _) in *.
    assert (Hp1o : MarketPosition.orders p1
                   = filter (fun o => negb (is_buy o)) (MarketPosition.orders position)).
    { unfold p1. rewrite orders_drop_buys. destruct is_yes; reflexivity. }
    assert (Hp1 : at_most_one_sell (MarketPosition.orders p1)).
    { rewrite Hp1o. now apply at_most_one_sell_filter. }
    assert (Hok1 : ledger_ok om1).
    { unfold om1. apply ledger_ok_set_position; auto. }
    assert (Hok2 : ledger_ok om2).
    { unfold om2. apply (ledger_ok_drop_all_buys (with_last_global_fill om1 (now clk))).
      exact Hok1. }
    assert (Hget2 : forall c, c <> cid ->
              get_position c om2 = option_map drop_buys (get_position c om)).
    { intros c N. unfold om2, get_position. cbn [positions with_positions].
      rewrite dict_get_map_values. f_equal.
      change (get_position c om1 = get_position c om).
      unfold om1. rewrite get_set_position_other; auto. }
    set (p2 := check_runaway clk is_yes p1) in *.
    assert (Hp2o : MarketPosition.orders p2 = MarketPosition.orders p1)
      by apply orders_check_runaway.
    assert (Hs2 : has_sell token_id (MarketPosition.orders p2)
                  = has_sell token_id (MarketPosition.orders position)).
    { rewrite Hp2o, Hp1o. apply has_sell_drop_buys. }
    (* the final position and manager *)
    assert (Hfinal : exists pf omf,
      (if has_sell token_id (MarketPosition.orders p2)
       then set_position cid p2 om2
       else
         let '(_, position0, om0) :=
           place_and_track ex clk p2 token_id
             (_calculate_sell_price mid (MarketPosition.max_spread p2)
                (MarketPosition.tick_size p2) is_yes)
             (MarketPosition.inventory is_yes
                (MarketPosition.with_fill_times is_yes
                   (MarketPosition.with_entry_price is_yes
                      (MarketPosition.with_inventory is_yes
                         (MarketPosition.with_last_midpoint position mid)
                         (MarketPosition.inventory is_yes
                            (MarketPosition.with_last_midpoint position mid) + total))
                      mid)
                   (MarketPosition.fill_times is_yes
                      (MarketPosition.with_entry_price is_yes
                         (MarketPosition.with_inventory is_yes
                            (MarketPosition.with_last_midpoint position mid)
                            (MarketPosition.inventory is_yes
                               (MarketPosition.with_last_midpoint position mid) + total))
                         mid) ++ [now clk])))
             SELL cid mid (MarketPosition.min_size p2) om2 in
         set_position cid position0 om0)
      = set_position cid pf omf /\
      positions omf = positions om2 /\
      at_most_one_sell (MarketPosition.orders pf) /\
      (forall t, has_sell t (MarketPosition.orders p2) = true ->
                 has_sell t (MarketPosition.orders pf) = true)).
    { destruct (has_sell token_id (MarketPosition.orders p2)) eqn:Hs.
      - exists p2, om2. repeat split; auto. now rewrite Hp2o.
      - match goal with |- context [place_and_track ex clk ?p ?t ?pr ?sz ?sd ?cd ?md ?ms ?o] =>
          destruct (place_and_track_spec ex clk p t pr sz sd cd md ms o)
            as (placed & p' & c' & E & _ & Hp')
        end.
        rewrite E. exists p', (with_client om2 c'). split; [reflexivity|].
        split; [reflexivity|].
        destruct Hp' as [->|(o & -> & Ht & _)].
        + split; auto. now rewrite Hp2o.
        + cbn [MarketPosition.orders MarketPosition.with_orders]. split.
          * apply at_most_one_sell_add; [now rewrite Hp2o|now rewrite Ht].
          * intros t Ht'. rewrite has_sell_app, Ht'. reflexivity. }
    destruct Hfinal as (pf & omf & Ef & Epos & Hpf & Hmono).
    rewrite Ef in *. clear Ef.
    split; [|split].
    + apply ledger_ok_set_position; auto.
      apply (ledger_ok_positions om2); auto.
    + rewrite Hsub. clear Hsub.
      destruct (has_sell token_id (MarketPosition.orders position)) eqn:Hs.
      * exists []. rewrite app_nil_r. auto.
      * destruct (order_refused _ _).
        -- exists []. rewrite app_nil_r. auto.
        -- eexists. split; [reflexivity|]. right.
           eexists _, position. repeat split; auto.
    + intros c t pos Hc Ht.
      destruct (String.eqb c cid) eqn:Ec.
      * apply String.eqb_eq in Ec. subst c.
        rewrite Hget in Hc. injection Hc as <-.
        exists pf. split; [apply get_set_position_same|].
        apply Hmono. rewrite Hp2o, Hp1o, has_sell_drop_buys. exact Ht.
      * apply String.eqb_neq in Ec.
        exists (drop_buys pos). split.
        -- rewrite get_set_position_other; auto.
           change (dict_get String.eqb c (positions omf) = Some (drop_buys pos)).
           rewrite Epos. change (get_position c om2 = Some (drop_buys pos)).
           rewrite Hget2; auto. now rewrite Hc.
        -- now rewrite has_sell_orders_drop_buys.
  - (* SELL *)
    unfold om', handle_fill_group. rewrite Hget.
    pose proof (fresh_midpoint_submitted ex position (client om)) as Hfm.
    destruct (fresh_midpoint ex position (client om)) as [mid c1]. cbn [fst snd] in *.
    set (is_yes := String.eqb token_id (MarketPosition.token_id_yes position)).
    set (pf := MarketPosition.with_last_sell_fill _ _ _).
    assert (Hpfo : MarketPosition.orders pf = MarketPosition.orders position)
      by (unfold pf; destruct is_yes; reflexivity).
    split; [|split].
    + apply ledger_ok_set_position; [|now rewrite Hpfo].
      apply (ledger_ok_positions om); auto.
    + exists []. rewrite app_nil_r. cbn. auto.
    + intros c t pos Hc Ht.
      destruct (String.eqb c cid) eqn:Ec.
      * apply String.eqb_eq in Ec. subst c.
        rewrite Hget in Hc. injection Hc as <-.
        exists pf. split; [apply get_set_position_same|]. now rewrite Hpfo.
      * apply String.eqb_neq in Ec. exists pos. split; auto.
        rewrite get_set_position_other; auto.
Qed.

End FillGroupSpec.

Lemma sells_for_app cid t l l' :
  sells_for cid t (l ++ l') = sells_for cid t l ++ sells_for cid t l'.
Proof. unfold sells_for. apply filter_app. Qed.

Lemma sells_for_In cid t l r :
  In r (sells_for cid t l) <->
  In r l /\ req_side r = SELL /\ req_condition_id r = cid /\ req_token_id r = t.
Proof.
  unfold sells_for. rewrite filter_In, !andb_true_iff, !String.eqb_eq.
  destruct (req_side r); cbn; intuition congruence.
Qed.

Lemma sells_for_nil_iff cid t l :
  sells_for cid t l = [] <->
  forall r, In r l -> ~ (req_side r = SELL /\ req_condition_id r = cid /\ req_token_id r = t).
Proof.
  split.
  - intros E r Hr H. assert (X : In r (sells_for cid t l)) by (apply sells_for_In; tauto).
    rewrite E in X. destruct X.
  - intros H. destruct (sells_for cid t l) as [|r rest] eqn:E; auto.
    exfalso. assert (X : In r (sells_for cid t l)) by (rewrite E; now left).
    apply sells_for_In in X. apply (H r); tauto.
Qed.

Lemma aggregate_fills_NoDup fills acc :
  NoDup (map fst acc) -> NoDup (map fst (aggregate_fills fills acc)).
Proof.
  revert acc. induction fills as [|f fills IH]; intros acc H; cbn; auto.
  apply IH. apply dict_set_NoDup; auto. apply fill_key_eqb_eq.
Qed.

Section RestFills.
Variable ex : Exchange.

Lemma fill_groups_spec clk entries :
  forall om,
  ledger_ok om -> NoDup (map fst entries) ->
  let om' := fold_left (handle_fill_group ex clk) entries om in
  ledger_ok om' /\
  exists new,
    submitted (client om') = submitted (client om) ++ new /\
    (forall r, In r new -> from_buy_group entries r) /\
    (forall cid t,
       (List.length (sells_for cid t new) <= 1)%nat /\
       (forall pos, get_position cid om = Some pos ->
                    has_sell t (MarketPosition.orders pos) = true ->
                    sells_for cid t new = [])).
Proof.
  induction entries as [|[[[kc kt] ks] total] rest IH]; intros om Hok ND.
  - cbn. split; auto. exists []. rewrite app_nil_r. split; auto.
    split; [intros r []|]. intros cid t. cbn. split; auto.
  - cbn [fold_left].
    inversion ND as [|k ks' Hnotin ND']; subst. cbn [fst] in Hnotin.
    destruct (handle_fill_group_spec ex clk om kc kt ks total Hok)
      as (Hok1 & (new1 & Hs1 & Hn1) & Hmono).
    set (om1 := handle_fill_group ex clk om (kc, kt, ks, total)) in *.
    destruct (IH om1 Hok1 ND') as (Hok2 & new2 & Hs2 & Hfrom2 & Hprop2).
    cbv zeta in Hs2 |- *. split; auto.
    exists (new1 ++ new2). split.
    { change (submitted (client (fold_left (handle_fill_group ex clk) rest om1))
              = submitted (client om) ++ new1 ++ new2).
      rewrite Hs2, Hs1. now rewrite app_assoc. }
    assert (Hnew2 : forall cid t, (cid, t, BUY) = (kc, kt, ks) ->
                                  sells_for cid t new2 = []).
    { intros cid t E. apply sells_for_nil_iff. intros r Hr (Hside & Hc & Ht).
      destruct (Hfrom2 r Hr) as (_ & tot & Hin).
      apply Hnotin. rewrite Hc, Ht, E in Hin.
      change (kc, kt, ks) with (fst ((kc, kt, ks), tot)). now apply in_map. }
    split.
    + intros r Hr. apply in_app_or in Hr. destruct Hr as [Hr|Hr].
      * destruct Hn1 as [->|(r1 & pos & -> & -> & Hside & Hc & Ht & _)]; [destruct Hr|].
        destruct Hr as [<-|[]]. split; auto. exists total. left.
        rewrite Hc, Ht. reflexivity.
      * destruct (Hfrom2 r Hr) as (Hside & tot & Hin). split; auto.
        exists tot. now right.
    + intros cid t. rewrite sells_for_app, length_app.
      destruct (Hprop2 cid t) as (Hlen2 & Hnone2).
      destruct Hn1 as [->|(r1 & pos1 & -> & -> & Hside & Hc & Ht & Hg1 & Hh1)].
      * cbn. split; auto. intros pos Hg Hh.
        destruct (Hmono cid t pos Hg Hh) as (pos' & Hg' & Hh'). eauto.
      * destruct (String.eqb cid kc && String.eqb t kt) eqn:Ek.
        -- apply andb_true_iff in Ek. destruct Ek as [Ec Et].
           apply String.eqb_eq in Ec, Et. subst cid t.
           rewrite (Hnew2 kc kt eq_refl). rewrite app_nil_r, Nat.add_0_r.
           split.
           ++ unfold sells_for. cbn. destruct (_ && _); cbn; lia.
           ++ intros pos Hg Hh. congruence.
        -- assert (E1 : sells_for cid t [r1] = []).
           { apply sells_for_nil_iff. intros r [<-|[]] (_ & Hc' & Ht').
             rewrite Hc in Hc'. rewrite Ht in Ht'. subst.
             rewrite !String.eqb_refl in Ek. discriminate. }
           rewrite E1. cbn. split; auto.
           intros pos Hg Hh.
           destruct (Hmono cid t pos Hg Hh) as (pos' & Hg' & Hh'). eauto.
Qed.

Lemma handle_filled_orders_spec clk fills om :
  ledger_ok om ->
  let om' := handle_filled_orders ex clk fills om in
  ledger_ok om' /\
  exists new,
    submitted (client om') = submitted (client om) ++ new /\
    (forall r, In r new -> req_side r = SELL) /\
    (forall cid t,
       (List.length (sells_for cid t new) <= 1)%nat /\
       (forall pos, get_position cid om = Some pos ->
                    has_sell t (MarketPosition.orders pos) = true ->
                    sells_for cid t new = [])).
Proof.
  intros Hok om'. unfold om', handle_filled_orders.
  destruct (fill_groups_spec clk (aggregate_fills fills []) om Hok)
    as (Hok' & new & Hs & Hfrom & Hprop).
  { apply aggregate_fills_NoDup. constructor. }
  split; [now apply ledger_ok_cleanup|].
  exists new. rewrite client_cleanup. split; auto. split; auto.
  intros r Hr. now destruct (Hfrom r Hr).
Qed.

End RestFills.

Lemma find_owner_spec oid ps cid pos o :
  find_owner oid ps = Some (cid, pos, o) ->
  In (cid, pos) ps /\ In o (MarketPosition.orders pos) /\
  ActiveOrder.order_id o = oid.
Proof.
  induction ps as [|[c p] ps IH]; cbn; [discriminate|].
  destruct (find _ (MarketPosition.orders p)) as [o'|] eqn:E.
  - intros [= -> -> ->]. apply find_some in E. destruct E as [E1 E2].
    apply String.eqb_eq in E2. auto.
  - intros H. destruct (IH H) as (? & ? & ?). auto.
Qed.

Lemma sells_for_single cid t r :
  sells_for cid t [r] = [] \/
  (sells_for cid t [r] = [r] /\ req_side r = SELL /\
   req_condition_id r = cid /\ req_token_id r = t).
Proof.
  unfold sells_for. cbn.
  destruct (Side_eqb (req_side r) SELL && String.eqb (req_condition_id r) cid
            && String.eqb (req_token_id r) t) eqn:E; auto.
  right. rewrite !andb_true_iff, !String.eqb_eq in E.
  destruct (req_side r); cbn in E; intuition congruence.
Qed.

Section WsFills.
Variable ex : Exchange.

Lemma untracked_fill_on_spec clk asset_id size_matched c b om om' :
  untracked_fill_on clk asset_id size_matched c b om = Some om' ->
  ledger_ok om -> ledger_ok om' /\ client om' = client om.
Proof.
  unfold untracked_fill_on.
  destruct (get_position c om) as [pos|] eqn:Hget; [|discriminate].
  destruct (_ && _); [|discriminate].
  intros H Hok. pose proof (ledger_ok_get _ _ _ Hok Hget) as Hpos.
  match type of H with (if is_empty_position ?p then _ else _) = _ =>
    set (pf := p) in *;
    assert (Hpf : at_most_one_sell (MarketPosition.orders pf))
  end.
  { unfold pf. cbn [MarketPosition.orders MarketPosition.with_orders].
    apply at_most_one_sell_filter.
    destruct (Qeqb _ 0); destruct b; exact Hpos. }
  destruct (is_empty_position pf); injection H as <-.
  - split; [now apply ledger_ok_del|reflexivity].
  - split; [now apply ledger_ok_set_position|reflexivity].
Qed.

Lemma handle_untracked_fill_spec clk asset_id size_matched cids om :
  ledger_ok om ->
  ledger_ok (handle_untracked_fill clk asset_id size_matched cids om) /\
  client (handle_untracked_fill clk asset_id size_matched cids om) = client om.
Proof.
  intros Hok. induction cids as [|c rest IH]; cbn; auto.
  destruct (untracked_fill_on clk asset_id size_matched c true om) as [om1|] eqn:E1.
  { eapply untracked_fill_on_spec; eauto. }
  destruct (untracked_fill_on clk asset_id size_matched c false om) as [om2|] eqn:E2.
  { eapply untracked_fill_on_spec; eauto. }
  exact IH.
Qed.

(** What [handle_ws_fill] does to the invariant and to the log. *)
Lemma handle_ws_fill_spec clk order_id asset_id side size_matched price om :
  ledger_ok om ->
  let om' := handle_ws_fill ex clk order_id asset_id side size_matched price om in
  ledger_ok om' /\
  exists new,
    submitted (client om') = submitted (client om) ++ new /\
    (forall r, In r new -> req_side r = SELL) /\
    (forall cid t,
       (List.length (sells_for cid t new) <= 1)%nat /\
       (forall pos,
          get_position cid om = Some pos ->
          has_sell t
            (filter (fun o => negb (String.eqb (ActiveOrder.order_id o) order_id))
               (MarketPosition.orders pos)) = true ->
          sells_for cid t new = [])).
Proof.
  intros Hok om'. unfold om', handle_ws_fill.
  destruct (find_owner order_id (positions om)) as [[[cid position] matched]|] eqn:Hfind.
  2:{ destruct (handle_untracked_fill_spec clk asset_id size_matched
                  (map fst (positions om)) om Hok) as [H1 H2].
      split; auto. exists []. rewrite H2, app_nil_r. split; auto.
      split; [intros r []|]. intros cid t. cbn. split; auto. }
  destruct (find_owner_spec _ _ _ _ _ Hfind) as (Hin & Hino & Hid).
  assert (Hget : get_position cid om = Some position).
  { apply In_dict_get; auto; [apply string_eqb_eq|apply Hok]. }
  pose proof (ledger_ok_get _ _ _ Hok Hget) as Hpos.
  set (is_yes := String.eqb (ActiveOrder.token_id matched)
                            (MarketPosition.token_id_yes position)).
  set (p0 := if Qltb 0.001 (ActiveOrder.size matched - size_matched) then _ else _).
  assert (Hp0 : at_most_one_sell (MarketPosition.orders p0)).
  { unfold p0. destruct (Qltb 0.001 _); cbn.
    - now apply at_most_one_sell_set_order_size.
    - now apply at_most_one_sell_filter. }
  assert (Hp0s : forall t,
    has_sell t (filter (fun o => negb (String.eqb (ActiveOrder.order_id o) order_id))
                  (MarketPosition.orders position)) = true ->
    has_sell t (MarketPosition.orders p0) = true).
  { intros t H. unfold p0.
    destruct (Qltb 0.001 _); cbn [MarketPosition.orders MarketPosition.with_orders]; auto.
    rewrite has_sell_set_order_size. eapply has_sell_filter_true; eauto. }
  destruct (ActiveOrder.side matched).
  - (* BUY *)
    rewrite cancel_buy_orders_eq.
    set (p1 := drop_buys p0).
    set (c1 := cancel_each ex _ _).
    assert (Hc1 : submitted c1 = submitted (client om))
      by (unfold c1; apply cancel_each_submitted).
    set (om1 := set_position cid p1 (with_client om c1)).
    cbn [config.GLOBAL_CIRCUIT_BREAKER].
    destruct (cancel_all_buys_eq ex (with_last_global_fill om1 (now clk)))
      as (c3 & Eom2 & Hc3).
    rewrite Eom2. clear Eom2.
    set (om2 := with_positions _ _).
    set (om3 := blacklist_market clk cid om2).
    assert (Hp1 : at_most_one_sell (MarketPosition.orders p1))
      by now apply at_most_one_sell_drop_buys.
    assert (Hok3 : ledger_ok om3).
    { apply (ledger_ok_positions om2); [reflexivity|].
      apply (ledger_ok_drop_all_buys (with_last_global_fill om1 (now clk))).
      unfold om1. apply ledger_ok_set_position; auto. }
    assert (Hs3 : submitted (client om3) = submitted (client om)).
    { cbn. cbn in Hc3. congruence. }
    set (p2 := check_runaway clk is_yes _).
    assert (Hp2o : MarketPosition.orders p2 = MarketPosition.orders p1).
    { unfold p2. rewrite orders_check_runaway. destruct is_yes; reflexivity. }
    set (T := ActiveOrder.token_id matched).
    destruct (has_sell T (MarketPosition.orders p2)) eqn:Hs.
    + (* a SELL is tracked: return *)
      cbn [negb andb]. split.
      * apply ledger_ok_set_position; auto. now rewrite Hp2o.
      * exists []. rewrite app_nil_r. split; [exact Hs3|].
        split; [intros r []|]. intros c t. cbn. split; auto.
    + pose proof (fresh_midpoint_submitted ex p2 (client om3)) as Hfm.
      destruct (fresh_midpoint ex p2 (client om3)) as [mid c4]. cbn [fst snd] in Hfm.
      set (p3 := MarketPosition.with_last_midpoint p2 mid).
      assert (Hp3o : MarketPosition.orders p3 = MarketPosition.orders p2) by reflexivity.
      match goal with |- context [place_and_track ex clk ?p ?t ?pr ?sz ?sd ?cd ?md ?ms ?o] =>
        destruct (place_and_track_spec ex clk p t pr sz sd cd md ms o)
          as (placed & p' & c' & E & Hsub & Hp')
      end.
      rewrite E. cbn [negb andb].
      assert (Hp'ok : at_most_one_sell (MarketPosition.orders p')).
      { destruct Hp' as [->|(o & -> & Ht & _)].
        - change (at_most_one_sell (MarketPosition.orders p2)). now rewrite Hp2o.
        - change (at_most_one_sell (MarketPosition.orders p2 ++ [o])).
          apply at_most_one_sell_add.
          + now rewrite Hp2o.
          + rewrite Ht. exact Hs. }
      split.
      * destruct (is_empty_position p').
        -- apply (ledger_ok_del cid (with_client (with_client om3 c4) c'));
             apply (ledger_ok_positions om3); auto.
        -- apply ledger_ok_set_position; auto;
             apply (ledger_ok_positions om3); auto.
      * assert (Hcl : forall (b : bool) x y,
                  client (if b then with_positions (with_client (with_client om3 c4) c') x
                          else set_position cid y (with_client (with_client om3 c4) c')) = c')
          by (intros [] ? ?; reflexivity).
        rewrite Hcl, Hsub. cbn [client with_client]. rewrite Hfm, Hs3.
        destruct (negb _ && negb _).
        2:{ exists []. rewrite app_nil_r. split; auto.
            split; [intros r []|]. intros c t. cbn. split; auto. }
        eexists [_]. split; [reflexivity|].
        split; [intros r [<-|[]]; reflexivity|].
        intros c t.
        match goal with |- context [sells_for c t [?r]] =>
          destruct (sells_for_single c t r) as [En|(En & _ & Ec & Et)]; rewrite En
        end.
        -- cbn. split; auto.
        -- cbn in Ec, Et. subst c t. cbn. split; auto.
           intros pos Hg Hh. rewrite Hget in Hg. injection Hg as <-.
           apply Hp0s in Hh.
           assert (X : has_sell T (MarketPosition.orders p2) = true).
           { rewrite Hp2o. unfold p1. now rewrite has_sell_orders_drop_buys. }
           congruence.
  - (* SELL *)
    cbn [negb andb].
    match goal with |- context [is_empty_position ?p] => set (pf := p) end.
    assert (Hpfo : MarketPosition.orders pf = MarketPosition.orders p0).
    { unfold pf. destruct (Qeqb _ 0); destruct is_yes; reflexivity. }
    split.
    + destruct (is_empty_position pf).
      * now apply ledger_ok_del.
      * apply ledger_ok_set_position; auto. now rewrite Hpfo.
    + exists []. rewrite app_nil_r. split.
      * destruct (is_empty_position pf); reflexivity.
      * split; [intros r []|]. intros c t. cbn. split; auto.
Qed.

End WsFills.

Section FillSequences.
Variable ex : Exchange.

Lemma apply_fill_spec om e :
  ledger_ok om ->
  ledger_ok (apply_fill ex om e) /\
  exists new,
    submitted (client (apply_fill ex om e)) = submitted (client om) ++ new /\
    (forall r, In r new -> req_side r = SELL) /\
    (forall cid t,
       (List.length (sells_for cid t new) <= 1)%nat /\
       (forall pos, get_position cid om = Some pos ->
                    tracks_sell_at e t pos = true ->
                    sells_for cid t new = [])).
Proof.
  intros Hok. destruct e as [clk oid aid side sm price|clk fills]; cbn [apply_fill tracks_sell_at].
  - apply handle_ws_fill_spec; auto.
  - apply handle_filled_orders_spec; auto.
Qed.

Lemma run_fills_ok events : forall om, ledger_ok om -> ledger_ok (run_fills ex events om).
Proof.
  unfold run_fills. induction events as [|e es IH]; intros om Hok; cbn; auto.
  apply IH. now apply apply_fill_spec.
Qed.

(** C2.  From a ledger in which no position tracks two SELLs on one token,
    after any finite sequence of fill events (stream fills and REST
    batches, in any order and with any answers of the exchange) no position
    tracks two SELLs on one token; and the handling of any further event
    submits at most one SELL per (condition, token), and none for a
    (condition, token) on which the position tracks a SELL when the event
    arrives. *)
Theorem at_most_one_sell_per_token (events : list FillInput) (e : FillInput)
    (om : OrderManager) :
  ledger_ok om ->
  let om1 := run_fills ex events om in
  let om2 := apply_fill ex om1 e in
  ledger_ok om1 /\
  exists new,
    submitted (client om2) = submitted (client om1) ++ new /\
    forall cid token_id,
      (List.length (sells_for cid token_id new) <= 1)%nat /\
      (forall position,
         get_position cid om1 = Some position ->
         tracks_sell_at e token_id position = true ->
         sells_for cid token_id new = []).
Proof.
  intros Hok om1 om2.
  pose proof (run_fills_ok events om Hok) as Hok1. fold om1 in Hok1.
  split; auto.
  destruct (apply_fill_spec om1 e Hok1) as (_ & new & Hs & _ & Hp).
  exists new. auto.
Qed.

End FillSequences.

Lemma only_sells_refl c c' : submitted c' = submitted c -> only_sells_added c c'.
Proof. intros H. exists []. rewrite app_nil_r. split; auto. intros r []. Qed.

Lemma only_sells_trans c1 c2 c3 :
  only_sells_added c1 c2 -> only_sells_added c2 c3 -> only_sells_added c1 c3.
Proof.
  intros (n1 & E1 & H1) (n2 & E2 & H2). exists (n1 ++ n2). split.
  - rewrite E2, E1. now rewrite app_assoc.
  - intros r Hr. apply in_app_or in Hr. destruct Hr; auto.
Qed.

Lemma is_global_paused_ext clk om om' :
  _last_global_fill om' = _last_global_fill om ->
  is_global_paused clk om' = is_global_paused clk om.
Proof. unfold is_global_paused. now intros ->. Qed.

Section Paused.
Variable ex : Exchange.

Lemma detect_fills_in_submitted clk mid live orders :
  forall position c,
  submitted (snd (detect_fills_in ex clk mid live orders position c)) = submitted c.
Proof.
  induction orders as [|o os IH]; intros position c; cbn [detect_fills_in]; auto.
  destruct (_ && _ && _); auto.
  pose proof (get_order_status_submitted ex (ActiveOrder.order_id o) c) as H.
  destruct (_get_order_status ex (ActiveOrder.order_id o) c) as [st c']. cbn in H.
  destruct st; rewrite IH; exact H.
Qed.

Lemma detect_fills_before_replace_submitted clk mid position c :
  submitted (snd (detect_fills_before_replace ex clk mid position c)) = submitted c.
Proof.
  unfold detect_fills_before_replace, client_get_orders.
  destruct (ex_get_orders ex (calls c)) as [d|oo]; auto.
  now rewrite detect_fills_in_submitted.
Qed.

Lemma cancel_orders_checked_submitted orders :
  forall b c, submitted (snd (cancel_orders_checked ex orders b c)) = submitted c.
Proof.
  induction orders as [|o os IH]; intros b c; cbn; auto.
  destruct (ex_cancel ex (calls c) (ActiveOrder.order_id o)); rewrite IH; reflexivity.
Qed.

Lemma cancel_market_orders_spec cid om :
  submitted (client (snd (cancel_market_orders ex cid om))) = submitted (client om) /\
  _last_global_fill (snd (cancel_market_orders ex cid om)) = _last_global_fill om.
Proof.
  unfold cancel_market_orders. destruct (get_position cid om) as [p|]; auto.
  pose proof (cancel_orders_checked_submitted (MarketPosition.orders p) true (client om)) as H.
  destruct (cancel_orders_checked ex (MarketPosition.orders p) true (client om)) as [[|] c];
    cbn in *; auto.
Qed.

(** A [place_and_track] of a SELL adds SELL requests only and leaves the
    pause timestamp alone. *)
Lemma place_and_track_sell clk position token price size cid mid mos om :
  only_sells_added (client om)
    (client (snd (place_and_track ex clk position token price size SELL cid mid mos om))) /\
  _last_global_fill (snd (place_and_track ex clk position token price size SELL cid mid mos om))
  = _last_global_fill om.
Proof.
  destruct (place_and_track_spec ex clk position token price size SELL cid mid mos om)
    as (placed & p' & c & E & Hs & _).
  rewrite E. cbn [snd client with_client _last_global_fill]. split; auto.
  destruct (negb _ && negb _).
  - eexists [_]. split; [exact Hs|]. intros r [<-|[]]. reflexivity.
  - now apply only_sells_refl.
Qed.

Lemma replace_orders_paused clk cid new_midpoint om :
  is_global_paused clk om = true ->
  only_sells_added (client om)
    (client (snd (replace_orders ex clk cid new_midpoint om))).
Proof.
  intros Hp. unfold replace_orders.
  destruct (get_position cid om) as [position|]; [|now apply only_sells_refl].
  pose proof (detect_fills_before_replace_submitted clk new_midpoint position (client om)) as Hd.
  destruct (detect_fills_before_replace ex clk new_midpoint position (client om)) as [p1 c1].
  cbn [snd] in Hd.
  set (om1 := set_position cid p1 (with_client om c1)).
  destruct (cancel_market_orders_spec cid om1) as [Hc Hg].
  destruct (cancel_market_orders ex cid om1) as [b om2]. cbn [snd] in Hc, Hg.
  assert (Hs2 : submitted (client om2) = submitted (client om)).
  { rewrite Hc. exact Hd. }
  assert (Hp2 : is_global_paused clk om2 = true).
  { rewrite <- Hp. apply is_global_paused_ext. rewrite Hg. reflexivity. }
  destruct (calculate_order_prices new_midpoint _ _) as [by_ bn].
  destruct (_ || _); [now apply only_sells_refl|].
  rewrite Hp2. unfold side_in_cooldown. cbn [orb negb]. rewrite !andb_false_r.
  set (np := MarketPosition.mk _ _ _ _ _ _ _ _ _ _ _ _ _ _ _ _ _ _).
  assert (Hyes : exists p3 om3,
    (if Qltb 0 (MarketPosition.yes_inventory p1)
     then place_and_track ex clk np (MarketPosition.token_id_yes p1)
            (_calculate_sell_price new_midpoint (MarketPosition.max_spread p1)
               (MarketPosition.tick_size p1) true)
            (MarketPosition.yes_inventory p1) SELL cid new_midpoint
            (MarketPosition.min_size p1) om2
     else (false, np, om2)) = (fst (fst
       (if Qltb 0 (MarketPosition.yes_inventory p1)
     then place_and_track ex clk np (MarketPosition.token_id_yes p1)
            (_calculate_sell_price new_midpoint (MarketPosition.max_spread p1)
               (MarketPosition.tick_size p1) true)
            (MarketPosition.yes_inventory p1) SELL cid new_midpoint
            (MarketPosition.min_size p1) om2
     else (false, np, om2))), p3, om3) /\
    only_sells_added (client om) (client om3)).
  { destruct (Qltb 0 (MarketPosition.yes_inventory p1)).
    - match goal with |- context [place_and_track ex clk ?p ?t ?pr ?sz SELL ?cd ?md ?ms ?o] =>
        destruct (place_and_track_sell clk p t pr sz cd md ms o) as [H1 _];
        destruct (place_and_track ex clk p t pr sz SELL cd md ms o) as [[pl p3] om3]
      end.
      exists p3, om3. split; auto. cbn [snd] in H1.
      destruct H1 as (n & E & Hn). exists n. split; auto. now rewrite E, Hs2.
    - exists np, om2. split; auto. now apply only_sells_refl. }
  destruct Hyes as (p3 & om3 & E3 & H3). rewrite E3. clear E3.
  assert (Hno : exists p4 om4,
    (if Qltb 0 (MarketPosition.no_inventory p1)
     then place_and_track ex clk p3 (MarketPosition.token_id_no p1)
            (_calculate_sell_price new_midpoint (MarketPosition.max_spread p1)
               (MarketPosition.tick_size p1) false)
            (MarketPosition.no_inventory p1) SELL cid new_midpoint
            (MarketPosition.min_size p1) om3
     else (false, p3, om3)) = (fst (fst
       (if Qltb 0 (MarketPosition.no_inventory p1)
     then place_and_track ex clk p3 (MarketPosition.token_id_no p1)
            (_calculate_sell_price new_midpoint (MarketPosition.max_spread p1)
               (MarketPosition.tick_size p1) false)
            (MarketPosition.no_inventory p1) SELL cid new_midpoint
            (MarketPosition.min_size p1) om3
     else (false, p3, om3))), p4, om4) /\
    only_sells_added (client om3) (client om4)).
  { destruct (Qltb 0 (MarketPosition.no_inventory p1)).
    - match goal with |- context [place_and_track ex clk ?p ?t ?pr ?sz SELL ?cd ?md ?ms ?o] =>
        destruct (place_and_track_sell clk p t pr sz cd md ms o) as [H1 _];
        destruct (place_and_track ex clk p t pr sz SELL cd md ms o) as [[pl p4] om4]
      end.
      exists p4, om4. split; auto.
    - exists p3, om3. split; auto. now apply only_sells_refl. }
  destruct Hno as (p4 & om4 & E4 & H4). rewrite E4. clear E4.
  pose proof (only_sells_trans _ _ _ H3 H4) as H.
  destruct (MarketPosition.orders p4); exact H.
Qed.

End Paused.

Section SellOnlyPaths.
Variable ex : Exchange.

Lemma client_cancel_submitted oid c :
  submitted (snd (client_cancel ex oid c)) = submitted c.
Proof. reflexivity. Qed.

Lemma place_and_track_sell_from c0 clk position token price size cid mid mos om :
  only_sells_added c0 (client om) ->
  only_sells_added c0
    (client (snd (place_and_track ex clk position token price size SELL cid mid mos om))).
Proof.
  intros H. eapply only_sells_trans; [exact H|]. apply place_and_track_sell.
Qed.

Lemma force_exit_side_only_sells c0 clk cid mid sells is_yes position om :
  only_sells_added c0 (client om) ->
  only_sells_added c0
    (client (snd (force_exit_side ex clk cid mid sells is_yes position om))).
Proof.
  intros H. unfold force_exit_side.
  destruct (Qleb _ 0); [exact H|].
  destruct (find _ sells) as [existing|].
  - destruct (Qleb _ (Qabs _)); [|exact H].
    unfold client_cancel.
    match goal with |- context [place_and_track ex clk ?p ?t ?pr ?sz SELL ?cd ?md ?ms ?o] =>
      pose proof (place_and_track_sell_from c0 clk p t pr sz cd md ms o) as X;
      destruct (place_and_track ex clk p t pr sz SELL cd md ms o) as [[pl p3] om3]
    end.
    apply X. cbn. exact H.
  - match goal with |- context [place_and_track ex clk ?p ?t ?pr ?sz SELL ?cd ?md ?ms ?o] =>
      pose proof (place_and_track_sell_from c0 clk p t pr sz cd md ms o) as X;
      destruct (place_and_track ex clk p t pr sz SELL cd md ms o) as [[pl p3] om3]
    end.
    apply X. exact H.
Qed.

Lemma force_exit_market_only_sells clk cid om :
  only_sells_added (client om) (client (force_exit_market ex clk cid om)).
Proof.
  unfold force_exit_market.
  destruct (get_position cid om) as [position|]; [|now apply only_sells_refl].
  set (c1 := cancel_each ex _ _).
  set (p1 := MarketPosition.with_orders position _).
  pose proof (fresh_midpoint_submitted ex p1 c1) as Hfm.
  destruct (fresh_midpoint ex p1 c1) as [mid c2]. cbn [snd] in Hfm.
  assert (H0 : only_sells_added (client om) (client (with_client om c2))).
  { apply only_sells_refl. cbn [client with_client]. rewrite Hfm.
    apply cancel_each_submitted. }
  pose proof (force_exit_side_only_sells (client om) clk cid mid
                (filter is_sell (MarketPosition.orders position)) true p1 _ H0) as H1.
  destruct (force_exit_side ex clk cid mid _ true p1 _) as [p2 om2]. cbn [snd] in H1.
  pose proof (force_exit_side_only_sells (client om) clk cid mid
                (filter is_sell (MarketPosition.orders position)) false p2 _ H1) as H2.
  destruct (force_exit_side ex clk cid mid _ false p2 _) as [p3 om3]. cbn [snd] in H2.
  destruct (is_empty_position p3); exact H2.
Qed.

Lemma reprice_side_only_sells c0 clk cid mid is_yes placed position om :
  only_sells_added c0 (client om) ->
  only_sells_added c0
    (client (snd (reprice_side ex clk cid mid is_yes placed position om))).
Proof.
  intros H. unfold reprice_side. destruct (Qltb 0 _); [|exact H].
  match goal with |- context [place_and_track ex clk ?p ?t ?pr ?sz SELL ?cd ?md ?ms ?o] =>
    pose proof (place_and_track_sell_from c0 clk p t pr sz cd md ms o H) as X;
    destruct (place_and_track ex clk p t pr sz SELL cd md ms o) as [[pl p3] om3]
  end.
  exact X.
Qed.

Lemma reprice_sell_orders_only_sells clk cid mid om :
  only_sells_added (client om) (client (snd (reprice_sell_orders ex clk cid mid om))).
Proof.
  unfold reprice_sell_orders.
  destruct (get_position cid om) as [position|]; [|now apply only_sells_refl].
  destruct (filter is_sell (MarketPosition.orders position)) as [|s ss] eqn:Es;
    [now apply only_sells_refl|].
  set (om1 := with_sell_fail_counts _ _).
  assert (H0 : only_sells_added (client om) (client om1)).
  { apply only_sells_refl. unfold om1.
    cbn [client with_sell_fail_counts with_client]. apply cancel_each_submitted. }
  match goal with |- context [reprice_side ex clk cid mid true false ?p om1] =>
    pose proof (reprice_side_only_sells (client om) clk cid mid true false p om1 H0) as H1;
    destruct (reprice_side ex clk cid mid true false p om1) as [[pl p2] om2]
  end.
  cbn [snd] in H1.
  pose proof (reprice_side_only_sells (client om) clk cid mid false pl p2 om2 H1) as H2.
  destruct (reprice_side ex clk cid mid false pl p2 om2) as [[pl' p3] om3].
  exact H2.
Qed.

Lemma reprice_if_stale_side_only_sells c0 clk cid mid asks is_yes repriced position om :
  only_sells_added c0 (client om) ->
  only_sells_added c0
    (client (snd (reprice_if_stale_side ex clk cid mid asks is_yes repriced position om))).
Proof.
  intros H. unfold reprice_if_stale_side.
  destruct (Qleb _ 0); [exact H|].
  destruct (find_sell _ _) as [existing|].
  - destruct (Qltb (Qabs _) _); [exact H|].
    unfold client_cancel.
    match goal with |- context [place_and_track ex clk ?p ?t ?pr ?sz SELL ?cd ?md ?ms ?o] =>
      pose proof (place_and_track_sell_from c0 clk p t pr sz cd md ms o) as X;
      destruct (place_and_track ex clk p t pr sz SELL cd md ms o) as [[pl p3] om3]
    end.
    apply X. cbn. exact H.
  - match goal with |- context [place_and_track ex clk ?p ?t ?pr ?sz SELL ?cd ?md ?ms ?o] =>
      pose proof (place_and_track_sell_from c0 clk p t pr sz cd md ms o H) as X;
      destruct (place_and_track ex clk p t pr sz SELL cd md ms o) as [[pl p3] om3]
    end.
    exact X.
Qed.

Lemma reprice_sell_if_stale_only_sells clk cid mid asks om :
  only_sells_added (client om)
    (client (snd (reprice_sell_if_stale ex clk cid mid asks om))).
Proof.
  unfold reprice_sell_if_stale.
  destruct (get_position cid om) as [position|]; [|now apply only_sells_refl].
  assert (H0 : only_sells_added (client om) (client om)) by now apply only_sells_refl.
  pose proof (reprice_if_stale_side_only_sells (client om) clk cid mid asks true false
                position om H0) as H1.
  destruct (reprice_if_stale_side ex clk cid mid asks true false position om)
    as [[r1 p1] om1]. cbn [snd] in H1.
  pose proof (reprice_if_stale_side_only_sells (client om) clk cid mid asks false r1
                p1 om1 H1) as H2.
  destruct (reprice_if_stale_side ex clk cid mid asks false r1 p1 om1)
    as [[r2 p2] om2].
  exact H2.
Qed.

End SellOnlyPaths.

Section RetrySells.
Variable ex : Exchange.

Lemma retry_side_only_sells clk cid is_yes om :
  only_sells_added (client om) (client (retry_side ex clk cid is_yes om)).
Proof.
  unfold retry_side.
  destruct (get_position cid om) as [position|]; [|now apply only_sells_refl].
  destruct (Qleb _ 0); [now apply only_sells_refl|].
  destruct (has_sell _ _); [now apply only_sells_refl|].
  destruct (_ <=? _)%Z.
  - unfold data_api_positions. destruct (Qltb 0.5 _); now apply only_sells_refl.
  - destruct (Qltb _ config.RESCAN_INTERVAL_SECONDS); [now apply only_sells_refl|].
    set (om1 := with_last_retry om _).
    pose proof (fresh_midpoint_submitted ex position (client om1)) as Hfm.
    destruct (fresh_midpoint ex position (client om1)) as [mid c1]. cbn [snd] in Hfm.
    match goal with |- context [place_and_track ex clk ?p ?t ?pr ?sz SELL ?cd ?md ?ms ?o] =>
      destruct (place_and_track_sell ex clk p t pr sz cd md ms o) as [H1 _];
      destruct (place_and_track ex clk p t pr sz SELL cd md ms o) as [[pl p3] om3]
    end.
    cbn [snd] in H1.
    assert (H : only_sells_added (client om) (client om3)).
    { destruct H1 as (n & E & Hn). exists n. split; auto.
      rewrite E. cbn. rewrite Hfm. reflexivity. }
    destruct pl; exact H.
Qed.

Lemma retry_pending_sells_only_sells clk om :
  only_sells_added (client om) (client (retry_pending_sells ex clk om)).
Proof.
  unfold retry_pending_sells. rewrite client_cleanup.
  generalize (positions om) as ps. intros ps. revert om.
  induction ps as [|e ps IH]; intros om; cbn [fold_left].
  - now apply only_sells_refl.
  - eapply only_sells_trans; [|apply IH].
    eapply only_sells_trans; apply retry_side_only_sells.
Qed.

End RetrySells.

(** C3.  While [is_global_paused] is true no BUY is placed:
    [place_two_sided_orders] and the supervisor's [place_initial_orders]
    return without touching anything, [process_cooldown_reentries] does
    nothing, and [replace_orders] submits SELLs only.  The other paths that
    place orders ([retry_pending_sells], [force_exit_market],
    [reprice_sell_orders], [reprice_sell_if_stale] and the two fill
    handlers) submit SELLs only at any time.  SELLs remain allowed: in a
    paused manager holding 50 YES shares, [replace_orders] submits one. *)
Theorem no_buy_while_globally_paused (ex : Exchange) (clk : Clock)
    (om : OrderManager) :
  is_global_paused clk om = true ->
  (forall opp, place_two_sided_orders ex clk opp om = (None, om)) /\
  (forall opportunities bot,
     order_manager bot = om ->
     place_initial_orders ex clk opportunities bot = bot) /\
  (forall cid new_midpoint,
     only_sells_added (client om)
       (client (snd (replace_orders ex clk cid new_midpoint om)))) /\
  process_cooldown_reentries ex clk om = om /\
  only_sells_added (client om) (client (retry_pending_sells ex clk om)) /\
  (forall cid,
     only_sells_added (client om) (client (force_exit_market ex clk cid om))) /\
  (forall cid new_midpoint,
     only_sells_added (client om)
       (client (snd (reprice_sell_orders ex clk cid new_midpoint om)))) /\
  (forall cid new_midpoint best_asks,
     only_sells_added (client om)
       (client (snd (reprice_sell_if_stale ex clk cid new_midpoint best_asks om)))) /\
  (ledger_ok om ->
   forall e, only_sells_added (client om) (client (apply_fill ex om e))) /\
  (exists r,
     In r (submitted (client (snd (replace_orders (calm_exchange 50) noon "A" 0.5
                                     (manager [("A"%string, holding_A 50 [])] 950 [])))))
     /\ req_side r = SELL /\
     is_global_paused noon (manager [("A"%string, holding_A 50 [])] 950 []) = true).
Proof.
  intros Hp. repeat split.
  - intros opp. unfold place_two_sided_orders. now rewrite Hp.
  - intros opps bot E. unfold place_initial_orders. rewrite E, Hp.
    destruct (_ && _); reflexivity.
  - intros cid new_midpoint. now apply replace_orders_paused.
  - unfold process_cooldown_reentries. now rewrite Hp.
  - apply retry_pending_sells_only_sells.
  - intros cid. apply force_exit_market_only_sells.
  - intros cid new_midpoint. apply reprice_sell_orders_only_sells.
  - intros cid new_midpoint best_asks. apply reprice_sell_if_stale_only_sells.
  - intros Hok e. destruct (apply_fill_spec ex om e Hok) as (_ & new & Hs & Hn & _).
    exists new. auto.
  - eexists. split; [|split].
    + vm_compute. left. reflexivity.
    + reflexivity.
    + vm_compute. reflexivity.
Qed.

Lemma no_buy_while_globally_paused_witness :
  is_global_paused noon (manager [("A"%string, quoting_A)] 950 []) = true /\
  process_cooldown_reentries (calm_exchange 0) noon
    (manager [("A"%string, quoting_A)] 950 [])
  = manager [("A"%string, quoting_A)] 950 [].
Proof.
  assert (H : is_global_paused noon (manager [("A"%string, quoting_A)] 950 []) = true)
    by (vm_compute; reflexivity).
  split; [exact H|].
  exact (proj1 (proj2 (proj2 (proj2
    (no_buy_while_globally_paused (calm_exchange 0) noon _ H))))).
Defined.

(** C4, amended.  For N >= 1 BUY fills of one (condition, token) handled
    together by [handle_filled_orders] on a position that tracks no SELL on
    the token: the fills lead to one SELL request, for the side's prior
    inventory plus the total of the fills, at the unwind price of the fresh
    midpoint; it is submitted, once, when it passes the sanity checks of
    [_place_order] (0 < price < 1, 0 < size <= MAX_ORDER_SIZE,
    price * size <= MAX_SINGLE_ORDER_USDC), and nothing is submitted
    otherwise. *)
Theorem aggregated_buy_fills_one_sell (ex : Exchange) (clk : Clock)
    (fills : list FillEvent.t) (om : OrderManager) (cid token_id : string)
    (position : MarketPosition.t) :
  fills <> [] ->
  (forall f, In f fills ->
     FillEvent.condition_id f = cid /\ FillEvent.token_id f = token_id /\
     FillEvent.side f = BUY) ->
  get_position cid om = Some position ->
  has_sell token_id (MarketPosition.orders position) = false ->
  let is_yes := String.eqb token_id (MarketPosition.token_id_yes position) in
  let req := unwind_request ex position (client om) cid token_id (total_size fills) in
  req_side req = SELL /\
  req_size req = MarketPosition.inventory is_yes position + total_size fills /\
  submitted (client (handle_filled_orders ex clk fills om))
  = if order_refused (req_price req) (req_size req)
    then submitted (client om)
    else submitted (client om) ++ [req].
Proof.
  intros Hne Hall Hget Hs is_yes req. split; [reflexivity|]. split; [reflexivity|].
  unfold handle_filled_orders. rewrite client_cleanup.
  rewrite (aggregate_one_key (cid, token_id, BUY)); auto.
  - cbn [fold_left].
    pose proof (handle_fill_group_buy_submitted ex clk om cid token_id
                  (total_size fills) position Hget) as Hsub.
    cbv zeta in Hsub. rewrite Hs in Hsub. exact Hsub.
  - intros f Hf. destruct (Hall f Hf) as (E1 & E2 & E3).
    unfold key_of. now rewrite E1, E2, E3.
Qed.

Lemma aggregated_buy_fills_one_sell_witness :
  submitted (client (handle_filled_orders (calm_exchange 0) noon two_small_fills
                       (manager [("A"%string, quoting_A)] 0 [])))
  = [unwind_request (calm_exchange 0) quoting_A fresh_client "A" "A-yes"
       (total_size two_small_fills)].
Proof.
  assert (H1 : two_small_fills <> []) by discriminate.
  assert (H2 : forall f, In f two_small_fills ->
     FillEvent.condition_id f = "A"%string /\ FillEvent.token_id f = "A-yes"%string /\
     FillEvent.side f = BUY).
  { intros f [<-|[<-|[]]]; repeat split. }
  assert (H3 : get_position "A" (manager [("A"%string, quoting_A)] 0 []) = Some quoting_A)
    by reflexivity.
  assert (H4 : has_sell "A-yes" (MarketPosition.orders quoting_A) = false) by reflexivity.
  pose proof (aggregated_buy_fills_one_sell (calm_exchange 0) noon two_small_fills
                _ "A" "A-yes" quoting_A H1 H2 H3 H4) as H.
  cbv zeta in H. destruct H as (_ & _ & H). rewrite H. reflexivity.
Defined.

(** C4, as stated, fails.  Two BUY YES fills of 300 shares each, on a
    position with no inventory and no SELL: the SELL of 600 shares is above
    [MAX_ORDER_SIZE], [_place_order] refuses it, and no SELL is submitted. *)
Lemma aggregated_buy_fills_counterexample :
  get_position "A" (manager [("A"%string, quoting_A)] 0 []) = Some quoting_A /\
  has_sell "A-yes" (MarketPosition.orders quoting_A) = false /\
  total_size two_large_fills == 600 /\
  submitted (client (handle_filled_orders (calm_exchange 0) noon two_large_fills
                       (manager [("A"%string, quoting_A)] 0 [])))
  = [].
Proof.
  split; [reflexivity|]. split; [reflexivity|]. split; [reflexivity|].
  vm_compute. reflexivity.
Qed.

Lemma ledger_ok_quoting_A : ledger_ok (manager [("A"%string, quoting_A)] 0 []).
Proof.
  split; cbn.
  - constructor; [intros []|constructor].
  - constructor; [|constructor]. intros t. unfold count_sells. cbn. lia.
Qed.

Lemma at_most_one_sell_per_token_witness :
  ledger_ok (manager [("A"%string, quoting_A)] 0 []) /\
  ledger_ok (run_fills (calm_exchange 0)
               [WsFill noon "buy-A" "A-yes" "SELL" 50 0.48]
               (manager [("A"%string, quoting_A)] 0 [])).
Proof.
  split; [exact ledger_ok_quoting_A|].
  exact (proj1 (at_most_one_sell_per_token (calm_exchange 0)
                  [WsFill noon "buy-A" "A-yes" "SELL" 50 0.48]
                  (RestFills noon []) _ ledger_ok_quoting_A)).
Defined.



(** ** Where the code leaves the specification *)

(** C5, where the code leaves it.  A SELL fill of 50 on a side that holds
    80 shares, handled by [handle_filled_orders]: the inventory goes down
    to 30, and the entry price is cleared and [yes_last_sell_fill] set to
    now although shares are left. *)
Theorem rest_sell_fill_clears_entry_with_shares_left :
  let om := manager [("A"%string, holding_A 80 [])] 0 [] in
  let om' := handle_filled_orders (calm_exchange 80) noon sell_fill_50 om in
  exists position,
    get_position "A" om' = Some position /\
    MarketPosition.yes_inventory position == 30 /\
    MarketPosition.yes_entry_price position == 0 /\
    MarketPosition.yes_last_sell_fill position == now noon.
Proof.
  cbv zeta. eexists. split; [vm_compute; reflexivity|].
  repeat split; reflexivity.
Qed.

(** The stream path on the same fill keeps both fields. *)
Lemma ws_sell_fill_keeps_entry_with_shares_left :
  let om := manager [("A"%string, holding_A 80 [sell_A_yes 50])] 0 [] in
  let om' := handle_ws_fill (calm_exchange 80) noon "sell-A" "A-yes" "BUY" 50 0.5 om in
  exists position,
    get_position "A" om' = Some position /\
    MarketPosition.yes_inventory position == 30 /\
    MarketPosition.yes_entry_price position == 0.48 /\
    MarketPosition.yes_last_sell_fill position == 0.
Proof.
  cbv zeta. eexists. split; [vm_compute; reflexivity|].
  repeat split; reflexivity.
Qed.

(** C6, where the code leaves it.  After a BUY fill handled by
    [handle_filled_orders] the market is not blacklisted; after the same
    fill handled by [handle_ws_fill] it is. *)
Theorem rest_buy_fill_leaves_market_off_blacklist :
  let om := manager [("A"%string, quoting_A)] 0 [] in
  fst (is_blacklisted noon "A"
         (handle_filled_orders (calm_exchange 50) noon buy_fill_50 om)) = false /\
  fst (is_blacklisted noon "A"
         (handle_ws_fill (calm_exchange 50) noon "buy-A" "A-yes" "SELL" 50 0.48 om))
  = true.
Proof. split; vm_compute; reflexivity. Qed.

Lemma order_refused_false price size :
  order_refused price size = false <->
  (0 < price /\ price < 1 /\ 0 < size /\
   size <= config.MAX_ORDER_SIZE /\
   price * size <= config.MAX_SINGLE_ORDER_USDC).
Proof.
  unfold order_refused. rewrite !orb_false_iff, !Qleb_false.
  split.
  - intros ((((H1 & H2) & H3) & H4) & H5). repeat split; auto.
    + destruct (Qlt_le_dec config.MAX_ORDER_SIZE size) as [C|]; auto.
      apply Qltb_true in C. congruence.
    + destruct (Qlt_le_dec config.MAX_SINGLE_ORDER_USDC (price * size)) as [C|]; auto.
      apply Qltb_true in C. congruence.
  - intros (H1 & H2 & H3 & H4 & H5). repeat split; auto.
    + destruct (Qltb config.MAX_ORDER_SIZE size) eqn:C; auto.
      apply Qltb_true in C. lra.
    + destruct (Qltb config.MAX_SINGLE_ORDER_USDC (price * size)) eqn:C; auto.
      apply Qltb_true in C. lra.
Qed.

(** Whatever [_place_order] posts has passed its sanity checks. *)
Lemma place_order_posts_within_caps ex clk token_id price size side cid mid mos om :
  exists new,
    submitted (client (snd (_place_order ex clk token_id price size side cid mid mos om)))
    = submitted (client om) ++ new /\
    forall r, In r new -> within_caps r.
Proof.
  destruct (place_order_spec ex clk token_id price size side cid mid mos om)
    as (res & c & E & Hs & _).
  rewrite E. cbn [snd client with_client]. rewrite Hs.
  destruct (order_refused price size) eqn:R; cbn [negb andb].
  - exists []. rewrite app_nil_r. split; auto. intros r [].
  - destruct (inventory_cap_refuses token_id size side cid om); cbn [negb].
    + exists []. rewrite app_nil_r. split; auto. intros r [].
    + eexists [_]. split; [reflexivity|]. intros r [<-|[]].
      apply order_refused_false in R. exact R.
Qed.

(** C8, where the code leaves it.  [_place_recovery_sell] of 1000 shares at
    midpoint 0.50 posts a SELL of 1000 shares at 0.50, which [_place_order]
    would refuse twice over (size above [MAX_ORDER_SIZE], 500 USDC above
    [MAX_SINGLE_ORDER_USDC]). *)
Theorem recovery_sell_skips_order_caps :
  let bot := _place_recovery_sell (calm_exchange 1000) "A-yes" 1000 fresh_bot in
  exists r,
    submitted (client (order_manager bot)) = [r] /\
    req_side r = SELL /\ req_price r == 0.5 /\ req_size r == 1000 /\
    order_refused (req_price r) (req_size r) = true /\
    ~ within_caps r.
Proof.
  cbv zeta. eexists. split; [vm_compute; reflexivity|].
  split; [reflexivity|]. split; [vm_compute; reflexivity|].
  split; [vm_compute; reflexivity|]. split; [vm_compute; reflexivity|].
  intros (_ & _ & _ & H & _). revert H. apply Qlt_not_le. reflexivity.
Qed.

